(** * function_app.py: the timer-triggered water-usage job

    A shallow embedding of [src/function_app.py].  Python code that can
    raise is embedded in a state-and-exception monad; the services the
    job talks to (blob storage, the local file system, the Oracle
    session, numpy's global generator, the logger) are part of an
    explicit [World], and what they answer is read from a [Host]. *)

From Stdlib Require Import ZArith List Lia Ascii String PrimFloat Uint63.
From stdpp Require Import base gmap strings list pretty.

Local Open Scope Z_scope.

(** ** Python exceptions *)

(** The exception classes that can reach the job.  Every class here
    derives from Python's [Exception]; [IntegrityError] and
    [OperationalError] derive from [oracledb.DatabaseError], while
    [InterfaceError] derives from [oracledb.Error] only. *)
Inductive exn_class :=
  | DatabaseError
  | IntegrityError
  | OperationalError
  | InterfaceError
  | ValueError
  | IndexError
  | KeyError
  | TypeError
  | OSError
  | ResourceNotFoundError
  | ServiceRequestError.

(** A raised exception: its class and [str(e)]. *)
Record exn := Exn { exn_class_of : exn_class; exn_str : string }.

(** [isinstance(e, oracledb.DatabaseError)]. *)
Definition is_DatabaseError (e : exn) : bool :=
  match exn_class_of e with
  | DatabaseError | IntegrityError | OperationalError => true
  | _ => false
  end.

(** ** The monad of Python statements *)

Inductive result (A : Type) :=
  | Returned (a : A)
  | Raised (e : exn).
Arguments Returned {A} a.
Arguments Raised {A} e.

(** A computation over a state [S]: the state survives a raise. *)
Definition M (S A : Type) : Type := S -> result A * S.

Definition ret {S A} (a : A) : M S A := fun s => (Returned a, s).

Definition raise {S A} (e : exn) : M S A := fun s => (Raised e, s).

Definition bind {S A B} (m : M S A) (k : A -> M S B) : M S B :=
  fun s =>
    match m s with
    | (Returned a, s') => k a s'
    | (Raised e, s') => (Raised e, s')
    end.

Notation "x <- m ;; k" := (bind m (fun x => k))
  (at level 60, m at next level, right associativity).
Notation "m ;;; k" := (bind m (fun _ => k))
  (at level 60, right associativity).

(** [try: body except <handles>: handler e]. *)
Definition try_except {S A} (body : M S A) (handles : exn -> bool)
    (handler : exn -> M S A) : M S A :=
  fun s =>
    match body s with
    | (Raised e, s') => if handles e then handler e s' else (Raised e, s')
    | r => r
    end.

Definition get {S} : M S S := fun s => (Returned s, s).
Definition modify {S} (f : S -> S) : M S unit := fun s => (Returned tt, f s).

(** [for x in xs: body x]. *)
Fixpoint for_each {S A} (xs : list A) (body : A -> M S unit) : M S unit :=
  match xs with
  | [] => ret tt
  | x :: xs' => body x ;;; for_each xs' body
  end.

(** A list comprehension whose element expression may raise. *)
Fixpoint comprehension {S A B} (xs : list A) (elt : A -> M S B) : M S (list B) :=
  match xs with
  | [] => ret []
  | x :: xs' => b <- elt x ;; bs <- comprehension xs' elt ;; ret (b :: bs)
  end.

(** ** numpy's global generator *)

(** [np.random] is a cursor over the generator's output, read three
    ways: as raw words (for bounded integers), as standard normal
    deviates and as uniform doubles of the unit interval.  Each
    elementary draw moves the cursor by one. *)
Record RandomState := mkRandomState {
  pos : nat;
  bits : nat -> nat;
  gauss : nat -> float;
  unit_double : nat -> float
}.

Definition advance (n : nat) (rs : RandomState) : RandomState :=
  {| pos := pos rs + n; bits := bits rs; gauss := gauss rs;
     unit_double := unit_double rs |}.

(** The next [size] elementary draws, each read through [f]. *)
Definition drawn {A} (f : RandomState -> nat -> A) (rs : RandomState)
    (size : nat) : list A :=
  map (fun k => f rs (pos rs + k)%nat) (seq 0 size).

(** numpy's largest array dimension, [NPY_MAX_INTP] on a 64-bit build. *)
Definition NPY_MAX_INTP : Z := 2 ^ 63 - 1.

(** An array of [size] draws.  numpy rejects a negative [size], and a
    [size] beyond its largest array dimension; for the sizes in between
    the embedding takes it that the array fits in memory. *)
Definition draw {A} (size : Z) (f : RandomState -> nat -> A)
    : M RandomState (list A) :=
  fun rs =>
    if size <? 0
    then (Raised (Exn ValueError "negative dimensions are not allowed"), rs)
    else if NPY_MAX_INTP <? size
    then (Raised (Exn ValueError "Maximum allowed dimension exceeded"), rs)
    else (Returned (drawn f rs (Z.to_nat size)), advance (Z.to_nat size) rs).

(** [np.random.choice([x0, x1, ...], size=size)]: each draw is an
    index below the population size. *)
Definition choice_at {A} (x0 : A) (xs : list A) (rs : RandomState) (k : nat) : A :=
  nth (bits rs k mod S (length xs)) (x0 :: xs) x0.

Definition np_random_choice {A} (x0 : A) (xs : list A) (size : Z)
    : M RandomState (list A) :=
  draw size (choice_at x0 xs).

(** int64 to float64, as numpy promotes an integer operand. *)
Definition float_of_int (z : Z) : float :=
  if z <? 0 then PrimFloat.opp (PrimFloat.of_uint63 (Uint63.of_Z (- z)))
  else PrimFloat.of_uint63 (Uint63.of_Z z).

(** [np.random.normal(loc=loc, scale=scale, size=size)]: each draw is
    [loc + scale * z] for a standard normal deviate [z]. *)
Definition normal_at (loc scale : float) (rs : RandomState) (k : nat) : float :=
  PrimFloat.add loc (PrimFloat.mul scale (gauss rs k)).

Definition np_random_normal (loc scale : float) (size : Z)
    : M RandomState (list float) :=
  draw size (normal_at loc scale).

(** [np.random.randint(low, high, size=size)], for [low < high]. *)
Definition randint_at (low high : Z) (rs : RandomState) (k : nat) : Z :=
  low + Z.of_nat (bits rs k) mod (high - low).

Definition np_random_randint (low high : Z) (size : Z)
    : M RandomState (list Z) :=
  draw size (randint_at low high).

(** [np.random.choice([True, False], size=size, p=[p, 1 - p])]: the first
    entry is taken when the uniform double falls below [p]. *)
Definition choice_p_at (p : float) (rs : RandomState) (k : nat) : bool :=
  PrimFloat.ltb (unit_double rs k) p.

Definition np_random_choice_p (p : float) (size : Z)
    : M RandomState (list bool) :=
  draw size (choice_p_at p).

(** [int(b)] on a boolean. *)
Definition int_of_bool (b : bool) : Z := if b then 1 else 0.

(** [np.sum] of a boolean array. *)
Definition np_sum (mask : list bool) : Z :=
  foldr (fun b total => int_of_bool b + total) 0 mask.

(** [xs[mask] += vs]: the [j]-th flagged entry receives [vs[j]].  numpy
    wants one value for each flagged entry, and the generator passes
    [np.sum(mask)] of them. *)
Fixpoint masked_iadd (xs : list float) (mask : list bool) (vs : list Z)
    : list float :=
  match xs, mask with
  | x :: xs', true :: mask' =>
      match vs with
      | v :: vs' => PrimFloat.add x (float_of_int v) :: masked_iadd xs' mask' vs'
      | [] => x :: masked_iadd xs' mask' []
      end
  | x :: xs', false :: mask' => x :: masked_iadd xs' mask' vs
  | _, _ => xs
  end.

(** ** Observation records *)

(** [DataTuple = Tuple[str, str, float, int, str, float, int]], with the
    positions named after the columns they are inserted into. *)
Record DataTuple := mkDataTuple {
  time_of_day : string;
  season : string;
  temperature : float;
  household_size : Z;
  day_of_week : string;
  water_consumption : float;
  is_anomaly : Z
}.

(** [a[i]] on an array: out of range raises [IndexError]. *)
Definition item {S A} (a : list A) (i : nat) : M S A :=
  match a !! i with
  | Some x => ret x
  | None => raise (Exn IndexError "index out of bounds")
  end.

(** [range(n)]. *)
Definition range (n : Z) : list nat := seq 0 (Z.to_nat n).

Definition generate_sample_data_tuples (n_samples : Z)
    : M RandomState (list DataTuple) :=
  time_of_day <- np_random_choice "morning" ["afternoon"; "evening"; "night"] n_samples ;;
  season <- np_random_choice "spring" ["summer"; "fall"; "winter"] n_samples ;;
  temperature <- np_random_normal 20%float 5%float n_samples ;;
  household_size <- np_random_randint 1 6 n_samples ;;
  day_of_week <- np_random_choice "weekday" ["weekend"] n_samples ;;
  noise <- np_random_normal 0%float 10%float n_samples ;;
  let normal_consumption :=
    zip_with (fun h e => PrimFloat.add (float_of_int (h * 50)) e) household_size noise in
  anomalies <- np_random_choice_p 0x1.999999999999ap-5%float (* 0.05 *) n_samples ;;
  bumps <- np_random_choice 0 [250] (np_sum anomalies) ;;
  let anomalous_consumption := masked_iadd normal_consumption anomalies bumps in
  comprehension (range n_samples) (fun i =>
    t <- item time_of_day i ;;
    s <- item season i ;;
    c <- item temperature i ;;
    h <- item household_size i ;;
    d <- item day_of_week i ;;
    w <- item anomalous_consumption i ;;
    a <- item anomalies i ;;
    ret (mkDataTuple t s c h d w (int_of_bool a))).

(** ** The world outside the interpreter *)

Inductive level := INFO | WARNING | ERROR.

(** The calls a run makes to its collaborators and to the generator, in
    the order they are made.  The list is bookkeeping of the embedding:
    it lets a statement say that a call was or was not made. *)
Inductive call :=
  | CallFromConnectionString
  | CallOpenWb (path : string)
  | CallDownloadBlob (container : option string) (blob_name : string)
  | CallConnect
  | CallGenerate (n_samples : Z)
  | CallCursor
  | CallExecuteMany (rows : nat)
  | CallCommit
  | CallCursorClose
  | CallClose.

(** [files]: the local file system, path to contents.  [log]: what the
    [logging] module received.  [table]: the committed rows of
    [water_consumption_data], as any reader sees them.  [txn]: the rows
    the session has executed and not yet committed.  [session_open]:
    whether the Oracle session is open. *)
Record World := mkWorld {
  files : gmap string (list Byte.byte);
  log : list (level * string);
  np_random : RandomState;
  table : list DataTuple;
  txn : list DataTuple;
  session_open : bool;
  trace : list call
}.

Definition set_files (f : gmap string (list Byte.byte)) (w : World) : World :=
  mkWorld f (log w) (np_random w) (table w) (txn w) (session_open w) (trace w).
Definition set_log (l : list (level * string)) (w : World) : World :=
  mkWorld (files w) l (np_random w) (table w) (txn w) (session_open w) (trace w).
Definition set_np_random (rs : RandomState) (w : World) : World :=
  mkWorld (files w) (log w) rs (table w) (txn w) (session_open w) (trace w).
Definition set_table (t : list DataTuple) (w : World) : World :=
  mkWorld (files w) (log w) (np_random w) t (txn w) (session_open w) (trace w).
Definition set_txn (t : list DataTuple) (w : World) : World :=
  mkWorld (files w) (log w) (np_random w) (table w) t (session_open w) (trace w).
Definition set_session_open (b : bool) (w : World) : World :=
  mkWorld (files w) (log w) (np_random w) (table w) (txn w) b (trace w).
Definition set_trace (t : list call) (w : World) : World :=
  mkWorld (files w) (log w) (np_random w) (table w) (txn w) (session_open w) t.

(** What the collaborators answer.  An [option exn] is [None] when the
    call succeeds and [Some e] when it raises [e].
    - [readall container blob]: what
      [blob_client.download_blob().readall()] answers for the client of
      that blob;
    - [write_error path]: [Some (kept, e)] when writing to [path] raises
      [e] after [kept] bytes reached the file;
    - [oracledb_connect]: the outcome of [oracledb.connect] for the given
      arguments and the files staged at that moment;
    - [row_error i row]: what the database answers to the [i]-th row of
      a batch, [Some e] being a row-level failure. *)
Record Host := mkHost {
  gettempdir : string;
  getenv : string -> option string;
  from_connection_string : option string -> option exn;
  open_wb : string -> option exn;
  readall : option string -> string -> result (list Byte.byte);
  write_error : string -> option (nat * exn);
  oracledb_connect :
    string -> option string -> option string -> option string -> string ->
    option string -> gmap string (list Byte.byte) -> option exn;
  row_error : nat -> DataTuple -> option exn;
  commit_error : option exn
}.

(** [blob_service_client.get_blob_client(container=..., blob=...)]
    builds a client and sends nothing; it refuses a container or blob
    name that is missing or empty. *)
Definition named (name : option string) : bool :=
  match name with
  | Some (String _ _) => true
  | _ => false
  end.

Definition get_blob_client_error (container_name : option string)
    (blob_name : string) : option exn :=
  if named container_name && named (Some blob_name) then None
  else Some (Exn ValueError "Please specify a container name and blob name.").

(** What fetching a blob answers as a whole:
    [get_blob_client(...).download_blob().readall()]. *)
Definition download_blob (host : Host) (container_name : option string)
    (blob_name : string) : result (list Byte.byte) :=
  match get_blob_client_error container_name blob_name with
  | Some e => Raised e
  | None => readall host container_name blob_name
  end.

(** [func.TimerRequest]. *)
Record TimerRequest := mkTimerRequest { past_due : bool }.

(** [oracledb.Connection]: the job holds at most one session. *)
Inductive Connection := TheConnection.

(** [posixpath.join] of two components. *)
Definition startswith_sep (b : string) : bool :=
  match b with
  | String "/"%char _ => true
  | _ => false
  end.

Fixpoint endswith_sep (a : string) : bool :=
  match a with
  | EmptyString => false
  | String c EmptyString => Ascii.eqb c "/"%char
  | String _ a' => endswith_sep a'
  end.

Definition os_path_join (a b : string) : string :=
  if startswith_sep b then b
  else if String.eqb a "" || endswith_sep a then a +:+ b
  else a +:+ "/" +:+ b.

(** [os.environ.get(key, default)]. *)
Definition environ_get (getenv : string -> option string) (key dflt : string) : string :=
  default dflt (getenv key).

(** [d[key]] on a dict. *)
Definition subscript {S} (d : gmap string string) (key : string) : M S string :=
  match d !! key with
  | Some v => ret v
  | None => raise (Exn KeyError key)
  end.

Section Job.

Variable host : Host.

(** The module-level constants.  ([os.makedirs(WALLET_LOCATION,
    exist_ok=True)] runs once at import, before any run; whether a path
    can then be opened is the host's [open_wb].) *)
Definition TEMP_DIR : string := gettempdir host.
Definition CONFIG_DIR : string :=
  os_path_join TEMP_DIR (environ_get (getenv host) "CONFIG_DIR" "config").
Definition WALLET_LOCATION : string :=
  os_path_join TEMP_DIR (environ_get (getenv host) "WALLET_LOCATION" "wallet").
Definition PEM_PATH : string := os_path_join WALLET_LOCATION "ewallet.pem".
Definition TNS_PATH : string := os_path_join WALLET_LOCATION "tnsnames.ora".

Definition logging (lv : level) (msg : string) : M World unit :=
  modify (fun w => set_log (log w ++ [(lv, msg)]) w).

Definition called (c : call) : M World unit :=
  modify (fun w => set_trace (trace w ++ [c]) w).

Definition write_file (path : string) (data : list Byte.byte) : M World unit :=
  modify (fun w => set_files (<[path := data]> (files w)) w).

(** Raise what a collaborator answered, if it answered an exception. *)
Definition check (o : option exn) : M World unit :=
  match o with
  | Some e => raise e
  | None => ret tt
  end.

(** [get_blob_client] comes first and may refuse the names.
    [open(local_path, "wb")] then truncates the file before the blob is
    requested, and the [with] block closes it on every exit. *)
Definition download_file (container_name : option string)
    (blob_name local_path : string) : M World unit :=
  check (get_blob_client_error container_name blob_name) ;;;
  called (CallOpenWb local_path) ;;;
  check (open_wb host local_path) ;;;
  write_file local_path [] ;;;
  called (CallDownloadBlob container_name blob_name) ;;;
  match readall host container_name blob_name with
  | Raised e => raise e
  | Returned data =>
      match write_error host local_path with
      | Some (kept, e) => write_file local_path (take kept data) ;;; raise e
      | None =>
          write_file local_path data ;;;
          logging INFO ("Downloaded " +:+ blob_name +:+ " to " +:+ local_path)
      end
  end.

(** The statements under [try:] in [download_wallet_files]. *)
Definition download_wallet_files_body : M World unit :=
  called CallFromConnectionString ;;;
  check (from_connection_string host (getenv host "AZURE_STORAGE_CONNECTION_STRING")) ;;;
  let files_to_download : list (gmap string string) :=
    [ {[ "blob" := "ewallet.pem"; "local" := PEM_PATH ]};
      {[ "blob" := "tnsnames.ora"; "local" := TNS_PATH ]} ] in
  let container_name := getenv host "CONFIG_CONTAINER" in
  for_each files_to_download (fun file_info =>
    blob <- subscript file_info "blob" ;;
    local <- subscript file_info "local" ;;
    download_file container_name blob local).

(** [except Exception as e] takes every exception of the embedding. *)
Definition download_wallet_files : M World unit :=
  try_except download_wallet_files_body
    (fun _ => true)
    (fun e => logging ERROR ("Error downloading files from Azure Blob Storage: " +:+ exn_str e)).

(** What [oracledb.connect] answers to the job's arguments in world [w]. *)
Definition connect_answer (w : World) : option exn :=
  oracledb_connect host WALLET_LOCATION (getenv host "USER")
    (getenv host "PASSWORD") (getenv host "DSN") WALLET_LOCATION
    (getenv host "WALLET_PASSWORD") (files w).

Definition get_db_connection : M World (option Connection) :=
  try_except
    (called CallConnect ;;;
     w <- get ;;
     check (connect_answer w) ;;;
     modify (set_session_open true) ;;;
     ret (Some TheConnection))
    is_DatabaseError
    (fun e => logging ERROR ("Error connecting to the database: " +:+ exn_str e) ;;;
              ret None).

(** [cursor.executemany]: rows are executed in order inside the open
    transaction; the first row the database rejects raises, and the
    rows executed before it stay in the transaction. *)
Fixpoint execute_rows (i : nat) (rows : list DataTuple) : M World unit :=
  match rows with
  | [] => ret tt
  | r :: rows' =>
      check (row_error host i r) ;;;
      modify (fun w => set_txn (txn w ++ [r]) w) ;;;
      execute_rows (S i) rows'
  end.

Definition cursor_executemany (data_tuples : list DataTuple) : M World unit :=
  called (CallExecuteMany (length data_tuples)) ;;;
  execute_rows 0 data_tuples.

(** [connection.commit()]: the pending rows become visible to readers. *)
Definition connection_commit (connection : Connection) : M World unit :=
  called CallCommit ;;;
  check (commit_error host) ;;;
  modify (fun w => set_txn [] (set_table (table w ++ txn w) w)).

(** [connection.close()]: the session ends and drops what it had not
    committed.  On the session the run has just opened, [close()] is
    taken to answer, as are [cursor()] and the cursor's [close()] in
    [insert_data]: the host has no failure for these three calls. *)
Definition connection_close (connection : Connection) : M World unit :=
  called CallClose ;;;
  modify (fun w => set_session_open false (set_txn [] w)).

Definition insert_data (connection : Connection) (data_tuples : list DataTuple)
    : M World unit :=
  called CallCursor ;;;
  cursor_executemany data_tuples ;;;
  connection_commit connection ;;;
  called CallCursorClose ;;;
  logging INFO ("Inserted " +:+ pretty (length data_tuples) +:+ " rows into the database.").

(** Run a generator computation on the world's [np.random]. *)
Definition with_np_random {A} (m : M RandomState A) : M World A :=
  fun w =>
    match m (np_random w) with
    | (r, rs') => (r, set_np_random rs' w)
    end.

Definition generate_usage_data (myTimer : TimerRequest) : M World unit :=
  (if past_due myTimer then logging WARNING "The timer is past due!" else ret tt) ;;;
  download_wallet_files ;;;
  connection <- get_db_connection ;;
  match connection with
  | Some connection =>
      called (CallGenerate 10) ;;;
      data_tuples <- with_np_random (generate_sample_data_tuples 10) ;;
      insert_data connection data_tuples ;;;
      connection_close connection
  | None => ret tt
  end.

End Job.

(** ** Vocabulary of the statements *)

(** The record a comprehension step builds at index [i] from the seven
    arrays. *)
Definition row_of (tod sea : list string) (tem : list float) (hs : list Z)
    (dow : list string) (wc : list float) (an : list bool) (i : nat) : DataTuple :=
  mkDataTuple (nth i tod "") (nth i sea "") (nth i tem 0%float) (nth i hs 0)
    (nth i dow "") (nth i wc 0%float) (int_of_bool (nth i an false)).

(** The documented domains of the categorical and integer fields. *)
Definition in_domain (r : DataTuple) : Prop :=
  time_of_day r ∈ ["morning"; "afternoon"; "evening"; "night"] /\
  season r ∈ ["spring"; "summer"; "fall"; "winter"] /\
  1 <= household_size r <= 5 /\
  day_of_week r ∈ ["weekday"; "weekend"] /\
  (is_anomaly r = 0 \/ is_anomaly r = 1).

(** A computation respects a relation on worlds when the world it
    leaves is always related to the world it started from. *)
Definition respects {A} (R : relation World) (m : M World A) : Prop :=
  forall w, R w (snd (m w)).

(** The calls of credential provisioning. *)
Definition provisioning_call (c : call) : Prop :=
  match c with
  | CallFromConnectionString | CallOpenWb _ | CallDownloadBlob _ _ => True
  | _ => False
  end.

(** The calls of sample generation and of insertion. *)
Definition generation_or_insertion_call (c : call) : Prop :=
  match c with
  | CallGenerate _ | CallCursor | CallExecuteMany _ | CallCommit | CallCursorClose => True
  | _ => False
  end.

(** [w'] is [w] after more calls, each of them satisfying [P]. *)
Definition calls_added (P : call -> Prop) (w w' : World) : Prop :=
  exists l, trace w' = trace w ++ l /\ Forall P l.

(** Nothing of the generator or of the database session has changed. *)
Definition same_session (w w' : World) : Prop :=
  np_random w' = np_random w /\ table w' = table w /\ txn w' = txn w /\
  session_open w' = session_open w.

(** Provisioning: only provisioning calls, and the session untouched. *)
Definition provisioning_step (w w' : World) : Prop :=
  calls_added provisioning_call w w' /\ same_session w w'.

(** The world in which the run asks for a connection. *)
Definition provisioned (host : Host) (myTimer : TimerRequest) (w : World) : World :=
  snd (download_wallet_files host
         (if past_due myTimer
          then set_log (log w ++ [(WARNING, "The timer is past due!")]) w
          else w)).

(** No condition on a call. *)
Definition any_call (c : call) : Prop := True.



(** The claim C3 makes: when provisioning fails, the failure reaches the
    orchestrator and no connection is attempted. *)
Definition provisioning_fails (host : Host) (w : World) : Prop :=
  exists e w', download_wallet_files_body host w = (Raised e, w').

Definition aborts_on_fetch_error (host : Host) (myTimer : TimerRequest) (w : World) : Prop :=
  provisioning_fails host w ->
  (exists e w', download_wallet_files host w = (Raised e, w')) /\
  CallConnect ∉ trace (snd (generate_usage_data host myTimer w)).

(** The claim C1 makes: the batch is either committed whole, or the
    call fails, nothing is committed and nothing of the batch is left
    in the transaction. *)
Definition insert_atomic (host : Host) (connection : Connection)
    (rows : list DataTuple) (w : World) : Prop :=
  let out := insert_data host connection rows w in
  (fst out = Returned tt /\ table (snd out) = table w ++ rows) \/
  ((exists e, fst out = Raised e) /\ table (snd out) = table w /\ txn (snd out) = []).

(** The world in which a connected run starts inserting. *)
Definition inserting (host : Host) (myTimer : TimerRequest) (w : World)
    (rs' : RandomState) : World :=
  set_np_random rs'
    (set_trace (trace (provisioned host myTimer w) ++ [CallConnect; CallGenerate 10])
       (set_session_open true (provisioned host myTimer w))).

(** A computation is blind to the log when it neither reads it nor
    rewrites it: started with another log, it does the same and adds
    the same entries. *)
Definition log_blind {A} (m : M World A) : Prop :=
  forall w l,
    exists added,
      log (snd (m w)) = log w ++ added /\
      m (set_log l w) = (fst (m w), set_log (l ++ added) (snd (m w))).

(** The run after its lateness check. *)
Definition after_timer_check (host : Host) : M World unit :=
  download_wallet_files host ;;;
  connection <- get_db_connection host ;;
  match connection with
  | Some connection =>
      called (CallGenerate 10) ;;;
      data_tuples <- with_np_random (generate_sample_data_tuples 10) ;;
      insert_data host connection data_tuples ;;;
      connection_close connection
  | None => ret tt
  end.

(** A record is flagged when its anomaly flag is 1. *)
Definition flagged (r : DataTuple) : Prop := is_anomaly r = 1.

Global Instance flagged_dec r : Decision (flagged r).
Proof. unfold flagged. apply _. Defined.

(** ** Sample worlds and hosts *)

Definition sample_random_state : RandomState :=
  mkRandomState 0
    (fun k => k * 7 + 3)%nat
    (fun k => if Nat.even k then 0.5%float else (-1.25)%float)
    (fun k => if (k mod 3 =? 0)%nat then 0x1p-7%float else 0.5%float).

(** An environment in which only the container of the wallet is set. *)
Definition sample_environ (key : string) : option string :=
  if String.eqb key "CONFIG_CONTAINER" then Some "wallet-config" else None.

Definition empty_world : World :=
  mkWorld ∅ [] sample_random_state [] [] false [].

Definition on_time : TimerRequest := mkTimerRequest false.

(** Every collaborator answers. *)
Definition host_ok : Host :=
  mkHost "/tmp" sample_environ (fun _ => None) (fun _ => None)
    (fun _ _ => Returned [Byte.x2d; Byte.x2d])
    (fun _ => None) (fun _ _ _ _ _ _ _ => None) (fun _ _ => None) None.

(** The second artifact is missing from the container. *)
Definition host_tns_missing : Host :=
  mkHost "/tmp" sample_environ (fun _ => None) (fun _ => None)
    (fun _ blob =>
       if String.eqb blob "tnsnames.ora"
       then Raised (Exn ResourceNotFoundError "The specified blob does not exist.")
       else Returned [Byte.x2d; Byte.x2d])
    (fun _ => None) (fun _ _ _ _ _ _ _ => None) (fun _ _ => None) None.

(** The database rejects the credentials. *)
Definition host_bad_credentials : Host :=
  mkHost "/tmp" sample_environ (fun _ => None) (fun _ => None)
    (fun _ _ => Returned [Byte.x2d; Byte.x2d])
    (fun _ => None)
    (fun _ _ _ _ _ _ _ => Some (Exn DatabaseError "ORA-01017: invalid username/password"))
    (fun _ _ => None) None.

(** The database rejects the last row of a batch of [size] rows. *)
Definition host_last_row_rejected (size : nat) : Host :=
  mkHost "/tmp" sample_environ (fun _ => None) (fun _ => None)
    (fun _ _ => Returned [Byte.x2d; Byte.x2d])
    (fun _ => None) (fun _ _ _ _ _ _ _ => None)
    (fun i _ =>
       if (S i =? size)%nat
       then Some (Exn IntegrityError "ORA-02290: check constraint violated")
       else None)
    None.

Definition sample_row (h : Z) : DataTuple :=
  mkDataTuple "morning" "spring" 20%float h "weekday" (float_of_int (h * 50)) 0.

(** The first artifact is missing from the container. *)
Definition host_pem_missing : Host :=
  mkHost "/tmp" sample_environ (fun _ => None) (fun _ => None)
    (fun _ blob =>
       if String.eqb blob "ewallet.pem"
       then Raised (Exn ResourceNotFoundError "The specified blob does not exist.")
       else Returned [Byte.x2d; Byte.x2d])
    (fun _ => None) (fun _ _ _ _ _ _ _ => None) (fun _ _ => None) None.

(** The commit fails. *)
Definition host_commit_fails : Host :=
  mkHost "/tmp" sample_environ (fun _ => None) (fun _ => None)
    (fun _ _ => Returned [Byte.x2d; Byte.x2d])
    (fun _ => None) (fun _ _ _ _ _ _ _ => None) (fun _ _ => None)
    (Some (Exn OperationalError "ORA-03113: end-of-file on communication channel")).

(** The container of the wallet is not configured. *)
Definition host_no_container : Host :=
  mkHost "/tmp" (fun _ => None) (fun _ => None) (fun _ => None)
    (fun _ _ => Returned [Byte.x2d; Byte.x2d])
    (fun _ => None) (fun _ _ _ _ _ _ _ => None) (fun _ _ => None) None.

(** * Properties *)

(** ** The monad *)

Lemma bind_returned {S A B} (m : M S A) (k : A -> M S B) s a s' :
  m s = (Returned a, s') -> bind m k s = k a s'.
Proof. intros H. unfold bind. now rewrite H. Qed.

Lemma bind_raised {S A B} (m : M S A) (k : A -> M S B) s e s' :
  m s = (Raised e, s') -> bind m k s = (Raised e, s').
Proof. intros H. unfold bind. now rewrite H. Qed.

Lemma item_returned {S A} (a : list A) i x (s : S) :
  a !! i = Some x -> item a i s = (Returned x, s).
Proof. intros H. unfold item. now rewrite H. Qed.

Lemma comprehension_returned {S A B} (xs : list A) (elt : A -> M S B)
    (g : A -> B) (s : S) :
  (forall x, x ∈ xs -> elt x s = (Returned (g x), s)) ->
  comprehension xs elt s = (Returned (g <$> xs), s).
Proof.
  induction xs as [|x xs IH]; intros Hall; [reflexivity|].
  cbn [comprehension fmap list_fmap].
  rewrite (bind_returned _ _ _ _ _ (Hall x (list_elem_of_here x xs))).
  rewrite (bind_returned _ _ _ _ _ (IH (fun y Hy => Hall y (list_elem_of_further y x xs Hy)))).
  reflexivity.
Qed.

(** ** The generator's arrays *)

Lemma length_drawn {A} (f : RandomState -> nat -> A) rs size :
  length (drawn f rs size) = size.
Proof. unfold drawn. now rewrite length_map, length_seq. Qed.

Lemma lookup_drawn {A} (f : RandomState -> nat -> A) rs size i :
  (i < size)%nat -> drawn f rs size !! i = Some (f rs (pos rs + i)%nat).
Proof.
  intros Hi. unfold drawn.
  rewrite list_lookup_fmap, lookup_seq_lt by exact Hi. reflexivity.
Qed.

Lemma draw_returned {A} (f : RandomState -> nat -> A) size rs :
  0 <= size <= NPY_MAX_INTP ->
  draw size f rs = (Returned (drawn f rs (Z.to_nat size)), advance (Z.to_nat size) rs).
Proof.
  intros H. unfold draw. destruct (Z.ltb_spec size 0); [lia|].
  destruct (Z.ltb_spec NPY_MAX_INTP size); [lia | reflexivity].
Qed.

Lemma draw_too_large {A} (f : RandomState -> nat -> A) size rs :
  NPY_MAX_INTP < size ->
  draw size f rs = (Raised (Exn ValueError "Maximum allowed dimension exceeded"), rs).
Proof.
  intros H. unfold draw. assert (0 < NPY_MAX_INTP) by reflexivity.
  destruct (Z.ltb_spec size 0); [lia|].
  destruct (Z.ltb_spec NPY_MAX_INTP size); [reflexivity | lia].
Qed.

Lemma draw_raised {A} (f : RandomState -> nat -> A) size rs :
  size < 0 ->
  draw size f rs = (Raised (Exn ValueError "negative dimensions are not allowed"), rs).
Proof.
  intros H. unfold draw. destruct (Z.ltb_spec size 0); [reflexivity | lia].
Qed.


Lemma length_masked_iadd xs mask vs :
  length (masked_iadd xs mask vs) = length xs.
Proof.
  revert mask vs. induction xs as [|x xs IH]; intros [|[] mask] vs; cbn; try reflexivity.
  - destruct vs; cbn; now rewrite IH.
  - now rewrite IH.
Qed.

Lemma np_sum_nonneg mask : 0 <= np_sum mask.
Proof. unfold np_sum. induction mask as [|[] mask IH]; cbn; lia. Qed.

Lemma np_sum_le_length mask : np_sum mask <= Z.of_nat (length mask).
Proof. unfold np_sum. induction mask as [|[] mask IH]; cbn [foldr int_of_bool length]; lia. Qed.

(** An entry the mask leaves out is not touched. *)
Lemma lookup_masked_iadd_false xs mask vs i :
  mask !! i = Some false -> masked_iadd xs mask vs !! i = xs !! i.
Proof.
  revert mask vs i. induction xs as [|x xs IH]; intros [|b mask] vs i Hm;
    try discriminate; [now destruct i|].
  destruct i as [|i]; cbn in Hm.
  - injection Hm as ->. reflexivity.
  - destruct b; [destruct vs|]; cbn; now apply IH.
Qed.

(** A flagged entry receives one of the values on offer, as long as
    there is one value for each flag. *)
Lemma lookup_masked_iadd_true xs mask vs i x :
  mask !! i = Some true -> xs !! i = Some x ->
  (Z.to_nat (np_sum mask) <= length vs)%nat ->
  exists v, v ∈ vs /\
    masked_iadd xs mask vs !! i = Some (PrimFloat.add x (float_of_int v)).
Proof.
  revert mask vs i. induction xs as [|y xs IH]; intros [|b mask] vs i Hm Hx Hlen;
    try discriminate.
  pose proof (np_sum_nonneg mask) as Hnn.
  unfold np_sum in Hlen, Hnn, IH. cbn [foldr] in Hlen.
  destruct i as [|i]; cbn in Hm, Hx.
  - injection Hm as ->. injection Hx as ->.
    destruct vs as [|v vs]; [cbn in Hlen; lia|].
    exists v. split; [apply list_elem_of_here | reflexivity].
  - destruct b.
    + destruct vs as [|v vs]; [cbn in Hlen; lia|].
      destruct (IH mask vs i Hm Hx) as (v' & Hin & Heq); [cbn in Hlen; lia|].
      exists v'. split; [now apply list_elem_of_further | exact Heq].
    + destruct (IH mask vs i Hm Hx) as (v' & Hin & Heq); [exact Hlen|].
      exists v'. split; [exact Hin | exact Heq].
Qed.

Lemma lookup_nth {A} (l : list A) i d :
  (i < length l)%nat -> l !! i = Some (nth i l d).
Proof.
  intros Hi. destruct (lookup_lt_is_Some_2 l i Hi) as [x Hx].
  rewrite Hx. f_equal. symmetry. now apply nth_lookup_Some.
Qed.

Lemma choice_at_elem {A} (x0 : A) xs rs k : choice_at x0 xs rs k ∈ x0 :: xs.
Proof.
  unfold choice_at. apply list_elem_of_In, nth_In.
  cbn [length]. apply Nat.mod_upper_bound. discriminate.
Qed.

Lemma drawn_elem {A} (f : RandomState -> nat -> A) rs size x :
  x ∈ drawn f rs size -> exists k, x = f rs k.
Proof.
  unfold drawn. intros (k & -> & _)%list_elem_of_fmap. now exists (pos rs + k)%nat.
Qed.

(** For a size that is not negative the generator returns, and its
    result is read off the eight arrays it draws, one after the other,
    from [np.random]. *)
Lemma generate_sample_data_tuples_returned n rs :
  0 <= n <= NPY_MAX_INTP ->
  let N := Z.to_nat n in
  let rs1 := advance N rs in
  let rs2 := advance N rs1 in
  let rs3 := advance N rs2 in
  let rs4 := advance N rs3 in
  let rs5 := advance N rs4 in
  let rs6 := advance N rs5 in
  let rs7 := advance N rs6 in
  let tod := drawn (choice_at "morning" ["afternoon"; "evening"; "night"]) rs N in
  let sea := drawn (choice_at "spring" ["summer"; "fall"; "winter"]) rs1 N in
  let tem := drawn (normal_at 20 5) rs2 N in
  let hs := drawn (randint_at 1 6) rs3 N in
  let dow := drawn (choice_at "weekday" ["weekend"]) rs4 N in
  let noise := drawn (normal_at 0 10) rs5 N in
  let an := drawn (choice_p_at 0x1.999999999999ap-5) rs6 N in
  let bumps := drawn (choice_at 0 [250]) rs7 (Z.to_nat (np_sum an)) in
  let wc :=
    masked_iadd
      (zip_with (fun h e => PrimFloat.add (float_of_int (h * 50)) e) hs noise)
      an bumps in
  generate_sample_data_tuples n rs =
    (Returned (row_of tod sea tem hs dow wc an <$> seq 0 N),
     advance (Z.to_nat (np_sum an)) rs7).
Proof.
  intros Hn N rs1 rs2 rs3 rs4 rs5 rs6 rs7 tod sea tem hs dow noise an bumps wc.
  unfold generate_sample_data_tuples, np_random_choice, np_random_normal,
    np_random_randint, np_random_choice_p.
  do 7 (erewrite bind_returned by (apply draw_returned; exact Hn)).
  erewrite bind_returned.
  2:{ apply draw_returned. split; [apply np_sum_nonneg|].
      pose proof (np_sum_le_length
                    (drawn (choice_p_at 0x1.999999999999ap-5)
                       (advance N (advance N (advance N (advance N
                          (advance N (advance N rs)))))) N)) as Hsum.
      rewrite length_drawn in Hsum. subst N. lia. }
  apply comprehension_returned. intros i Hi%elem_of_seq.
  assert (Hlen : (i < N)%nat) by (subst N; lia).
  assert (Hwc : (i < length wc)%nat).
  { subst wc. rewrite length_masked_iadd, length_zip_with.
    subst hs noise. rewrite !length_drawn. lia. }
  rewrite (bind_returned _ _ _ _ _ (item_returned tod i _ _ (lookup_nth tod i "" ltac:(subst tod; now rewrite length_drawn)))).
  rewrite (bind_returned _ _ _ _ _ (item_returned sea i _ _ (lookup_nth sea i "" ltac:(subst sea; now rewrite length_drawn)))).
  rewrite (bind_returned _ _ _ _ _ (item_returned tem i _ _ (lookup_nth tem i 0%float ltac:(subst tem; now rewrite length_drawn)))).
  rewrite (bind_returned _ _ _ _ _ (item_returned hs i _ _ (lookup_nth hs i 0 ltac:(subst hs; now rewrite length_drawn)))).
  rewrite (bind_returned _ _ _ _ _ (item_returned dow i _ _ (lookup_nth dow i "" ltac:(subst dow; now rewrite length_drawn)))).
  rewrite (bind_returned _ _ _ _ _ (item_returned wc i _ _ (lookup_nth wc i 0%float Hwc))).
  rewrite (bind_returned _ _ _ _ _ (item_returned an i _ _ (lookup_nth an i false ltac:(subst an; now rewrite length_drawn)))).
  reflexivity.
Qed.

Lemma generate_sample_data_tuples_raised n rs :
  n < 0 ->
  generate_sample_data_tuples n rs =
    (Raised (Exn ValueError "negative dimensions are not allowed"), rs).
Proof.
  intros Hn. unfold generate_sample_data_tuples, np_random_choice.
  now erewrite bind_raised by (apply draw_raised; exact Hn).
Qed.

Lemma generate_sample_data_tuples_too_large n rs :
  NPY_MAX_INTP < n ->
  generate_sample_data_tuples n rs =
    (Raised (Exn ValueError "Maximum allowed dimension exceeded"), rs).
Proof.
  intros Hn. unfold generate_sample_data_tuples, np_random_choice.
  now erewrite bind_raised by (apply draw_too_large; exact Hn).
Qed.

(** A returned batch means a size numpy accepts. *)
Lemma generate_sample_data_tuples_returned_size n rs rows rs' :
  generate_sample_data_tuples n rs = (Returned rows, rs') ->
  0 <= n <= NPY_MAX_INTP.
Proof.
  intros Hgen. destruct (Z.lt_ge_cases n 0) as [Hneg | Hn].
  { rewrite generate_sample_data_tuples_raised in Hgen by exact Hneg. discriminate. }
  destruct (Z.lt_ge_cases NPY_MAX_INTP n) as [Hbig | Hmax]; [|lia].
  rewrite generate_sample_data_tuples_too_large in Hgen by exact Hbig. discriminate.
Qed.

Lemma nth_drawn {A} (f : RandomState -> nat -> A) rs size i d :
  (i < size)%nat -> nth i (drawn f rs size) d = f rs (pos rs + i)%nat.
Proof. intros Hi. apply nth_lookup_Some. now apply lookup_drawn. Qed.

Lemma randint_at_range low high rs k :
  low < high -> low <= randint_at low high rs k < high.
Proof.
  intros H. unfold randint_at.
  pose proof (Z.mod_pos_bound (Z.of_nat (bits rs k)) (high - low)). lia.
Qed.

Lemma randint_1_6 rs k : 1 <= randint_at 1 6 rs k <= 5.
Proof. pose proof (randint_at_range 1 6 rs k). lia. Qed.

Lemma int_of_bool_flag b : int_of_bool b = 0 \/ int_of_bool b = 1.
Proof. destruct b; [right | left]; reflexivity. Qed.

(** ** The sample generator *)






(** C6. In every generated record the water consumption is
    household_size * 50 plus that record's noise draw, the draw
    0 + 10 * z of the normal sampler with mean 0 and standard deviation
    10; a record flagged 0 carries exactly this baseline, and a record
    flagged 1 carries the baseline increased by 0 or by 250. *)
Theorem water_consumption_formula n rs rows rs' i r :
  generate_sample_data_tuples n rs = (Returned rows, rs') ->
  rows !! i = Some r ->
  let noise := normal_at 0 10 rs (pos rs + 5 * Z.to_nat n + i)%nat in
  let baseline := PrimFloat.add (float_of_int (household_size r * 50)) noise in
  (is_anomaly r = 0 /\ water_consumption r = baseline) \/
  (is_anomaly r = 1 /\
   (water_consumption r = PrimFloat.add baseline (float_of_int 0) \/
    water_consumption r = PrimFloat.add baseline (float_of_int 250))).
Proof.
  intros Hgen Hrow.
  pose proof (generate_sample_data_tuples_returned_size _ _ _ _ Hgen) as Hn.
  pose proof (generate_sample_data_tuples_returned n rs Hn) as Heq.
  cbv zeta in Heq. rewrite Heq in Hgen. injection Hgen as <- _.
  apply list_lookup_fmap_Some in Hrow as (j & -> & Hj).
  apply lookup_seq in Hj as [-> Hi]. cbn [Nat.add] in *.
  set (N := Z.to_nat n) in *.
  set (rs5 := advance N (advance N (advance N (advance N (advance N rs))))) in *.
  set (hs := drawn (randint_at 1 6) (advance N (advance N (advance N rs))) N) in *.
  set (nz := drawn (normal_at 0 10) rs5 N) in *.
  set (an := drawn (choice_p_at 0x1.999999999999ap-5) (advance N rs5) N) in *.
  set (bumps := drawn (choice_at 0 [250]) (advance N (advance N rs5)) (Z.to_nat (np_sum an))) in *.
  set (normal_consumption := zip_with _ hs nz) in *.
  assert (Hnoise : nz !! i = Some (normal_at 0 10 rs (pos rs + 5 * N + i)%nat)).
  { subst nz. rewrite lookup_drawn by exact Hi. f_equal.
    unfold normal_at. subst rs5. cbn [pos advance gauss]. do 3 f_equal. lia. }
  assert (Hhs : hs !! i = Some (nth i hs 0)).
  { apply lookup_nth. subst hs. now rewrite length_drawn. }
  assert (Hbase : normal_consumption !! i =
            Some (PrimFloat.add (float_of_int (nth i hs 0 * 50))
                    (normal_at 0 10 rs (pos rs + 5 * N + i)%nat))).
  { subst normal_consumption. rewrite lookup_zip_with, Hhs, Hnoise. reflexivity. }
  assert (Han : an !! i = Some (nth i an false)).
  { apply lookup_nth. subst an. now rewrite length_drawn. }
  unfold row_of. cbn [is_anomaly water_consumption household_size].
  destruct (nth i an false) eqn:Hflag; [right | left]; (split; [reflexivity|]).
  - destruct (lookup_masked_iadd_true normal_consumption an bumps i _ Han Hbase)
      as (v & Hv & Hwc).
    { subst bumps. now rewrite length_drawn. }
    rewrite (nth_lookup_Some _ _ 0%float _ Hwc).
    subst bumps. apply drawn_elem in Hv as [k ->].
    pose proof (choice_at_elem 0 [250] (advance N (advance N rs5)) k) as Hk.
    apply list_elem_of_In in Hk. destruct Hk as [<- | [<- | []]]; [left | right]; reflexivity.
  - apply (nth_lookup_Some _ _ 0%float).
    now rewrite (lookup_masked_iadd_false normal_consumption an bumps i Han).
Qed.

Lemma water_consumption_formula_witness :
  exists rows rs' r,
    generate_sample_data_tuples 4 sample_random_state = (Returned rows, rs') /\
    rows !! 0%nat = Some r /\
    is_anomaly r = 1 /\
    (water_consumption r =
       PrimFloat.add
         (PrimFloat.add (float_of_int (household_size r * 50))
            (normal_at 0 10 sample_random_state 20))
         (float_of_int 0) \/
     water_consumption r =
       PrimFloat.add
         (PrimFloat.add (float_of_int (household_size r * 50))
            (normal_at 0 10 sample_random_state 20))
         (float_of_int 250)).
Proof.
  eexists _, _, _. split; [vm_compute; reflexivity|]. split; [reflexivity|].
  destruct (water_consumption_formula 4 sample_random_state _ _ 0%nat _
              ltac:(vm_compute; reflexivity) eq_refl) as [[Hflag _] | Hflagged].
  - discriminate Hflag.
  - exact Hflagged.
Defined.




(** ** Relations kept by every step *)

Section Respects.

Context (R : relation World) `{!PreOrder R}.

Lemma respects_ret {A} (a : A) : respects R (ret a).
Proof. intros w. reflexivity. Qed.

Lemma respects_raise {A} e : respects R (@raise World A e).
Proof. intros w. reflexivity. Qed.

Lemma respects_modify f : (forall w, R w (f w)) -> respects R (modify f).
Proof. intros H w. apply H. Qed.

Lemma respects_bind {A B} (m : M World A) (k : A -> M World B) :
  respects R m -> (forall a, respects R (k a)) -> respects R (bind m k).
Proof.
  intros Hm Hk w. unfold bind. specialize (Hm w).
  destruct (m w) as [[a | e] w1]; cbn in *; [|exact Hm].
  transitivity w1; [exact Hm | apply Hk].
Qed.

Lemma respects_try_except {A} (body : M World A) handles handler :
  respects R body -> (forall e, respects R (handler e)) ->
  respects R (try_except body handles handler).
Proof.
  intros Hb Hh w. unfold try_except. specialize (Hb w).
  destruct (body w) as [[a | e] w1]; cbn in *; [exact Hb|].
  destruct (handles e); cbn; [|exact Hb].
  transitivity w1; [exact Hb | apply Hh].
Qed.

Lemma respects_for_each {A} (xs : list A) (body : A -> M World unit) :
  (forall x, respects R (body x)) -> respects R (for_each xs body).
Proof.
  intros Hb. induction xs as [|x xs IH]; cbn [for_each].
  - apply respects_ret.
  - apply respects_bind; [apply Hb | intros _; exact IH].
Qed.

Lemma respects_check o : respects R (check o).
Proof. destruct o; [apply respects_raise | apply respects_ret]. Qed.

Lemma respects_subscript d key : respects R (@subscript World d key).
Proof.
  unfold subscript. destruct (d !! key); [apply respects_ret | apply respects_raise].
Qed.

End Respects.

Global Instance calls_added_preorder P : PreOrder (calls_added P).
Proof.
  split.
  - intros w. exists []. split; [now rewrite app_nil_r | constructor].
  - intros w1 w2 w3 (l1 & H1 & F1) (l2 & H2 & F2). exists (l1 ++ l2). split.
    + now rewrite H2, H1, app_assoc.
    + now apply Forall_app.
Qed.

Global Instance same_session_preorder : PreOrder same_session.
Proof.
  split.
  - intros w. repeat split.
  - intros w1 w2 w3 (A1 & B1 & C1 & D1) (A2 & B2 & C2 & D2).
    repeat split; congruence.
Qed.

Global Instance provisioning_step_preorder : PreOrder provisioning_step.
Proof.
  split.
  - intros w. split; reflexivity.
  - intros w1 w2 w3 [A1 B1] [A2 B2]. split; etransitivity; eassumption.
Qed.

Lemma provisioning_step_log w l : provisioning_step w (set_log l w).
Proof.
  split; [|repeat split]. exists []. split; [cbn; now rewrite app_nil_r | constructor].
Qed.

Lemma provisioning_step_files w f : provisioning_step w (set_files f w).
Proof.
  split; [|repeat split]. exists []. split; [cbn; now rewrite app_nil_r | constructor].
Qed.

Lemma provisioning_step_call w c :
  provisioning_call c -> provisioning_step w (set_trace (trace w ++ [c]) w).
Proof.
  intros Hc. split; [|repeat split].
  exists [c]. split; [reflexivity | now constructor].
Qed.

Lemma download_file_provisioning host container blob path :
  respects provisioning_step (download_file host container blob path).
Proof.
  unfold download_file, called, write_file, logging.
  repeat first
    [ apply respects_bind; [typeclasses eauto | | intros _]
    | apply respects_check; typeclasses eauto
    | apply respects_raise; typeclasses eauto
    | apply respects_modify; intros w;
      first [ apply provisioning_step_log | apply provisioning_step_files
            | apply provisioning_step_call; exact I ]
    | match goal with
      | |- respects _ (match ?x with _ => _ end) => destruct x
      end ].
Qed.

Lemma download_wallet_files_provisioning host :
  respects provisioning_step (download_wallet_files host).
Proof.
  unfold download_wallet_files, download_wallet_files_body, called, logging.
  apply respects_try_except; [typeclasses eauto | |].
  - apply respects_bind; [typeclasses eauto | | intros _].
    { apply respects_modify. intros w. apply provisioning_step_call. exact I. }
    apply respects_bind; [typeclasses eauto | | intros _].
    { apply respects_check. typeclasses eauto. }
    apply respects_for_each; [typeclasses eauto|]. intros d.
    apply respects_bind; [typeclasses eauto | | intros blob].
    { apply respects_subscript. typeclasses eauto. }
    apply respects_bind; [typeclasses eauto | | intros local].
    { apply respects_subscript. typeclasses eauto. }
    apply download_file_provisioning.
  - intros e. apply respects_modify. intros w. apply provisioning_step_log.
Qed.

(** ** Credential provisioning *)

Lemma file_info_blob (b l : string) :
  ({[ "blob" := b; "local" := l ]} : gmap string string) !! "blob" = Some b.
Proof. by simplify_map_eq. Qed.

Lemma file_info_local (b l : string) :
  ({[ "blob" := b; "local" := l ]} : gmap string string) !! "local" = Some l.
Proof. by simplify_map_eq. Qed.

(** The loop over the two dictionaries, unrolled. *)
Lemma download_wallet_files_body_unrolled host w :
  download_wallet_files_body host w =
    (called CallFromConnectionString ;;;
     check (from_connection_string host (getenv host "AZURE_STORAGE_CONNECTION_STRING")) ;;;
     download_file host (getenv host "CONFIG_CONTAINER") "ewallet.pem" (PEM_PATH host) ;;;
     download_file host (getenv host "CONFIG_CONTAINER") "tnsnames.ora" (TNS_PATH host) ;;;
     ret tt) w.
Proof.
  unfold download_wallet_files_body, subscript. cbn [for_each].
  rewrite !file_info_blob, !file_info_local. reflexivity.
Qed.

Lemma download_wallet_files_catches host w :
  download_wallet_files host w =
    match download_wallet_files_body host w with
    | (Returned _, w') => (Returned tt, w')
    | (Raised e, w') =>
        (Returned tt,
         set_log (log w' ++ [(ERROR, "Error downloading files from Azure Blob Storage: "
                                       +:+ exn_str e)]) w')
    end.
Proof.
  unfold download_wallet_files, try_except.
  now destruct (download_wallet_files_body host w) as [[[] | e] w'].
Qed.

Lemma download_wallet_files_returns host w :
  download_wallet_files host w = (Returned tt, snd (download_wallet_files host w)).
Proof.
  rewrite download_wallet_files_catches.
  now destruct (download_wallet_files_body host w) as [[[] | e] w'].
Qed.

(** For a blob that has a name, [get_blob_client] looks at the
    container only. *)
Lemma get_blob_client_error_named container_name blob_name :
  named (Some blob_name) = true ->
  get_blob_client_error container_name blob_name =
    if named container_name then None
    else Some (Exn ValueError "Please specify a container name and blob name.").
Proof.
  intros Hblob. unfold get_blob_client_error. rewrite Hblob.
  now destruct (named container_name).
Qed.

(** Evaluate a provisioning run by cases on what the host answers. *)
Ltac world_simpl :=
  cbn beta iota zeta delta
    [files log np_random table txn session_open trace
     set_files set_log set_np_random set_table set_txn set_session_open set_trace
     fst snd].

Ltac host_cases :=
  repeat (world_simpl;
    match goal with
    | |- context [match open_wb ?h ?p with _ => _ end] => destruct (open_wb h p) eqn:?
    | |- context [named ?c] => destruct (named c) eqn:?
    | |- context [match readall ?h ?c ?b with _ => _ end] =>
        destruct (readall h c b) eqn:?
    | |- context [match write_error ?h ?p with _ => _ end] =>
        destruct (write_error h p) as [[? ?] |] eqn:?
    | |- context [match from_connection_string ?h ?s with _ => _ end] =>
        destruct (from_connection_string h s) eqn:?
    end); world_simpl.

Ltac provisioning_run :=
  rewrite !download_wallet_files_catches, !download_wallet_files_body_unrolled;
  unfold download_file, download_blob;
  rewrite ?(get_blob_client_error_named _ "ewallet.pem" eq_refl),
    ?(get_blob_client_error_named _ "tnsnames.ora" eq_refl);
  unfold bind, called, check, write_file, logging, modify, raise, ret;
  match goal with
  | |- context [PEM_PATH ?h] => generalize (PEM_PATH h) (TNS_PATH h); intros ? ?
  end;
  host_cases.

Lemma provisioned_files_log host l w :
  files (snd (download_wallet_files host (set_log l w))) =
  files (snd (download_wallet_files host w)).
Proof. provisioning_run; reflexivity. Qed.

Ltac same_map :=
  apply map_eq; intros ?; rewrite ?lookup_insert; repeat case_decide; congruence.

Lemma provisioning_idempotent_files host w :
  files (snd (download_wallet_files host (snd (download_wallet_files host w)))) =
  files (snd (download_wallet_files host w)).
Proof. provisioning_run; try reflexivity; same_map. Qed.

(** C8. Provisioning is idempotent: run twice in a row against the same
    host (the same configuration, the same remote blobs and the same
    answers of storage and file system), it leaves at each of the two
    staged paths the very contents the first run left there. *)
Theorem provision_idempotent host w :
  let once := snd (download_wallet_files host w) in
  let twice := snd (download_wallet_files host once) in
  files twice !! PEM_PATH host = files once !! PEM_PATH host /\
  files twice !! TNS_PATH host = files once !! TNS_PATH host.
Proof.
  intros once twice. subst once twice.
  now rewrite provisioning_idempotent_files.
Qed.

(** ** Connecting *)

Lemma get_db_connection_cases host w :
  let w1 := set_trace (trace w ++ [CallConnect]) w in
  get_db_connection host w =
    match connect_answer host w with
    | None => (Returned (Some TheConnection), set_session_open true w1)
    | Some e =>
        if is_DatabaseError e
        then (Returned None,
              set_log (log w ++ [(ERROR, "Error connecting to the database: " +:+ exn_str e)]) w1)
        else (Raised e, w1)
    end.
Proof.
  unfold get_db_connection, connect_answer, try_except, bind, called, check, get,
    logging, modify, raise, ret.
  world_simpl.
  destruct (oracledb_connect host _ _ _ _ _ _ _) as [e|]; [|reflexivity].
  now destruct (is_DatabaseError e).
Qed.

(** ** The run *)

Lemma generate_usage_data_provisioned host myTimer w :
  generate_usage_data host myTimer w =
    (connection <- get_db_connection host ;;
     match connection with
     | Some connection =>
         called (CallGenerate 10) ;;;
         data_tuples <- with_np_random (generate_sample_data_tuples 10) ;;
         insert_data host connection data_tuples ;;;
         connection_close connection
     | None => ret tt
     end) (provisioned host myTimer w).
Proof.
  unfold generate_usage_data, provisioned.
  destruct (past_due myTimer).
  - unfold bind at 1. unfold logging, modify. 
    unfold bind at 1. now rewrite download_wallet_files_returns.
  - unfold bind at 1. unfold ret at 1.
    unfold bind at 1. now rewrite download_wallet_files_returns.
Qed.

Lemma provisioned_step host myTimer w :
  provisioning_step w (provisioned host myTimer w).
Proof.
  unfold provisioned. destruct (past_due myTimer).
  - etransitivity; [apply provisioning_step_log|].
    apply download_wallet_files_provisioning.
  - apply download_wallet_files_provisioning.
Qed.

Lemma provisioned_files host myTimer w :
  files (provisioned host myTimer w) = files (snd (download_wallet_files host w)).
Proof.
  unfold provisioned. destruct (past_due myTimer); [|reflexivity].
  apply provisioned_files_log.
Qed.

Lemma calls_added_modify w w' :
  (exists l, trace w' = trace w ++ l) -> calls_added any_call w w'.
Proof.
  intros [l Hl]. exists l. split; [exact Hl|].
  apply Forall_forall. intros; exact I.
Qed.

Ltac adds_calls :=
  repeat first
    [ apply respects_bind; [typeclasses eauto | | intros ?]
    | apply respects_check; typeclasses eauto
    | apply respects_ret; typeclasses eauto
    | apply respects_modify; intros ?; apply calls_added_modify; world_simpl;
      first [ exists []; now rewrite app_nil_r | eexists; reflexivity ] ].

Lemma execute_rows_adds_calls host i rows :
  respects (calls_added any_call) (execute_rows host i rows).
Proof.
  revert i. induction rows as [|r rows IH]; intros i; cbn [execute_rows].
  - apply respects_ret. typeclasses eauto.
  - adds_calls. apply IH.
Qed.

Lemma insert_data_adds_calls host connection data_tuples :
  respects (calls_added any_call) (insert_data host connection data_tuples).
Proof.
  unfold insert_data, cursor_executemany, connection_commit, called, logging.
  adds_calls. apply execute_rows_adds_calls.
Qed.

Lemma with_np_random_adds_calls {A} (m : M RandomState A) :
  respects (calls_added any_call) (with_np_random m).
Proof.
  intros w. unfold with_np_random. destruct (m (np_random w)) as [r rs'].
  world_simpl. exists []. split; [now rewrite app_nil_r | constructor].
Qed.

Lemma connected_run_adds_calls host connection :
  respects (calls_added any_call)
    (called (CallGenerate 10) ;;;
     data_tuples <- with_np_random (generate_sample_data_tuples 10) ;;
     insert_data host connection data_tuples ;;;
     connection_close connection).
Proof.
  unfold called, connection_close.
  apply respects_bind; [typeclasses eauto | | intros _].
  { adds_calls. }
  apply respects_bind; [typeclasses eauto | | intros data_tuples].
  { apply with_np_random_adds_calls. }
  apply respects_bind; [typeclasses eauto | | intros _].
  { apply insert_data_adds_calls. }
  adds_calls.
Qed.

(** Whatever provisioning did, the run goes on to ask for a connection:
    its calls are provisioning calls, then [CallConnect], then the rest. *)
Lemma run_attempts_connection host myTimer w :
  exists l1 l2,
    trace (snd (generate_usage_data host myTimer w)) =
      trace w ++ l1 ++ CallConnect :: l2 /\
    Forall provisioning_call l1.
Proof.
  rewrite generate_usage_data_provisioned.
  destruct (provisioned_step host myTimer w) as [(l1 & Hl1 & Hp) _].
  exists l1. unfold bind at 1. rewrite get_db_connection_cases. cbv zeta.
  destruct (connect_answer host (provisioned host myTimer w)) as [e|].
  - exists []. split; [|exact Hp].
    destruct (is_DatabaseError e); world_simpl; now rewrite Hl1, <- app_assoc.
  - destruct (connected_run_adds_calls host TheConnection
                (set_session_open true
                   (set_trace (trace (provisioned host myTimer w) ++ [CallConnect])
                      (provisioned host myTimer w)))) as (l2 & Hl2 & _).
    exists l2. split; [|exact Hp].
    rewrite Hl2. world_simpl. now rewrite Hl1, <- !app_assoc.
Qed.

Lemma provisioning_call_not_later c :
  provisioning_call c -> ~ generation_or_insertion_call c.
Proof. now destruct c. Qed.

(** ** Provisioning failures *)

(** C10. [download_wallet_files] returns normally on every input: an
    exception raised while fetching is caught inside it and only logged;
    and every run, whatever was staged, goes on to ask for a database
    connection once the provisioning calls are over. *)
Theorem download_wallet_files_always_returns host myTimer w :
  download_wallet_files host w =
    match download_wallet_files_body host w with
    | (Returned _, w') => (Returned tt, w')
    | (Raised e, w') =>
        (Returned tt,
         set_log (log w' ++ [(ERROR, "Error downloading files from Azure Blob Storage: "
                                       +:+ exn_str e)]) w')
    end /\
  (exists w', download_wallet_files host w = (Returned tt, w')) /\
  (exists l1 l2,
     trace (snd (generate_usage_data host myTimer w)) =
       trace w ++ l1 ++ CallConnect :: l2 /\
     Forall provisioning_call l1).
Proof.
  split; [apply download_wallet_files_catches|]. split.
  - eexists. apply download_wallet_files_returns.
  - apply run_attempts_connection.
Qed.

(** C3, as stated, fails: with the second artifact missing, provisioning
    fails, yet [download_wallet_files] returns normally and the run
    attempts the connection. *)
Lemma fetch_error_does_not_abort :
  ~ aborts_on_fetch_error host_tns_missing on_time empty_world.
Proof.
  intros Habort. destruct Habort as [_ Hno].
  - eexists _, _. vm_compute. reflexivity.
  - apply Hno. vm_compute. repeat constructor.
Qed.

(** C3, amended. When fetching or writing an artifact fails, the failure
    is not ignored silently: it is recorded as one ERROR log entry that
    carries the exception's text; [download_wallet_files] then returns
    normally and the run goes on to attempt the database connection. *)
Theorem fetch_error_logged_and_run_continues host myTimer w e w' :
  download_wallet_files_body host w = (Raised e, w') ->
  download_wallet_files host w =
    (Returned tt,
     set_log (log w' ++ [(ERROR, "Error downloading files from Azure Blob Storage: "
                                   +:+ exn_str e)]) w') /\
  (exists l1 l2,
     trace (snd (generate_usage_data host myTimer w)) =
       trace w ++ l1 ++ CallConnect :: l2 /\
     Forall provisioning_call l1).
Proof.
  intros Hbody. split; [|apply run_attempts_connection].
  rewrite download_wallet_files_catches, Hbody. reflexivity.
Qed.

Lemma fetch_error_logged_and_run_continues_witness :
  exists w',
    download_wallet_files host_tns_missing empty_world =
      (Returned tt,
       set_log (log w' ++ [(ERROR, "Error downloading files from Azure Blob Storage: "
                                     +:+ "The specified blob does not exist.")]) w') /\
    (exists l1 l2,
       trace (snd (generate_usage_data host_tns_missing on_time empty_world)) =
         trace empty_world ++ l1 ++ CallConnect :: l2 /\
       Forall provisioning_call l1).
Proof.
  eexists.
  apply (fetch_error_logged_and_run_continues host_tns_missing on_time empty_world
           (Exn ResourceNotFoundError "The specified blob does not exist.")).
  vm_compute. reflexivity.
Defined.

(** ** Connection failures *)

Lemma connect_answer_provisioned host myTimer w :
  connect_answer host (provisioned host myTimer w) =
  connect_answer host (snd (download_wallet_files host w)).
Proof. unfold connect_answer. now rewrite provisioned_files. Qed.

(** A run whose connection attempt fails ends right there. *)
Lemma generate_usage_data_not_connected host myTimer w e :
  connect_answer host (provisioned host myTimer w) = Some e ->
  let w1 := provisioned host myTimer w in
  let w2 := set_trace (trace w1 ++ [CallConnect]) w1 in
  generate_usage_data host myTimer w =
    if is_DatabaseError e
    then (Returned tt,
          set_log (log w1 ++ [(ERROR, "Error connecting to the database: " +:+ exn_str e)]) w2)
    else (Raised e, w2).
Proof.
  intros Hconnect w1 w2. rewrite generate_usage_data_provisioned. unfold bind at 1.
  rewrite get_db_connection_cases, Hconnect. cbv zeta.
  now destruct (is_DatabaseError e).
Qed.

(** C7. When [oracledb.connect] fails (whether [get_db_connection]
    turns the failure into [None] or lets it through), the run neither
    generates nor inserts: numpy's generator is where it was, the table
    and the transaction are unchanged, and none of the run's calls is a
    generator or insertion call. *)
Theorem no_generation_without_connection host myTimer w e :
  connect_answer host (snd (download_wallet_files host w)) = Some e ->
  let out := generate_usage_data host myTimer w in
  fst out = (if is_DatabaseError e then Returned tt else Raised e) /\
  np_random (snd out) = np_random w /\
  table (snd out) = table w /\
  txn (snd out) = txn w /\
  exists l, trace (snd out) = trace w ++ l /\
            Forall (fun c => ~ generation_or_insertion_call c) l.
Proof.
  intros Hconnect out. subst out.
  rewrite <- connect_answer_provisioned with (myTimer := myTimer) in Hconnect.
  rewrite (generate_usage_data_not_connected _ _ _ _ Hconnect).
  destruct (provisioned_step host myTimer w)
    as [(l1 & Hl1 & Hp) (Hrandom & Htable & Htxn & _)].
  assert (Hcalls : Forall (fun c => ~ generation_or_insertion_call c) (l1 ++ [CallConnect])).
  { apply Forall_app. split.
    - eapply Forall_impl; [exact Hp | apply provisioning_call_not_later].
    - constructor; [intros [] | constructor]. }
  destruct (is_DatabaseError e); world_simpl;
    (split; [reflexivity|]); (split; [exact Hrandom|]); (split; [exact Htable|]);
    (split; [exact Htxn|]); exists (l1 ++ [CallConnect]);
    (split; [now rewrite Hl1, <- app_assoc | exact Hcalls]).
Qed.

Lemma no_generation_without_connection_witness :
  let out := generate_usage_data host_bad_credentials on_time empty_world in
  fst out = Returned tt /\
  np_random (snd out) = np_random empty_world /\
  table (snd out) = table empty_world /\
  txn (snd out) = txn empty_world /\
  exists l, trace (snd out) = trace empty_world ++ l /\
            Forall (fun c => ~ generation_or_insertion_call c) l.
Proof.
  apply (no_generation_without_connection host_bad_credentials on_time empty_world
           (Exn DatabaseError "ORA-01017: invalid username/password")).
  reflexivity.
Defined.

(** ** Insertion *)

Lemma execute_rows_rejected host i r rows w e :
  row_error host i r = Some e ->
  execute_rows host i (r :: rows) w = (Raised e, w).
Proof.
  intros Hrow. cbn [execute_rows]. unfold bind, check. now rewrite Hrow.
Qed.

Lemma execute_rows_accepted host i r rows w :
  row_error host i r = None ->
  execute_rows host i (r :: rows) w =
  execute_rows host (S i) rows (set_txn (txn w ++ [r]) w).
Proof.
  intros Hrow. cbn [execute_rows]. unfold bind, check. now rewrite Hrow.
Qed.

Lemma execute_rows_cases host rows : forall i w,
  let out := execute_rows host i rows w in
  table (snd out) = table w /\
  ((fst out = Returned tt /\ txn (snd out) = txn w ++ rows /\
    forall j r, rows !! j = Some r -> row_error host (i + j) r = None) \/
   (exists k e, fst out = Raised e /\ txn (snd out) = txn w ++ take k rows /\
                (k < length rows)%nat)).
Proof.
  induction rows as [|r rows IH]; intros i w.
  - split; [reflexivity|]. left. cbn. rewrite app_nil_r. repeat split.
    intros j r Hj. discriminate.
  - destruct (row_error host i r) as [e|] eqn:Hrow.
    + rewrite (execute_rows_rejected _ _ _ _ _ _ Hrow).
      split; [reflexivity|]. right. exists 0%nat, e. cbn.
      rewrite app_nil_r. repeat split. lia.
    + rewrite (execute_rows_accepted _ _ _ _ _ Hrow).
      specialize (IH (S i) (set_txn (txn w ++ [r]) w)). cbv zeta in IH.
      destruct IH as [Htable [(Hret & Htxn & Hrows) | (k & e & Hraised & Htxn & Hk)]].
      * split; [exact Htable|]. left. split; [exact Hret|]. split.
        { rewrite Htxn. world_simpl. now rewrite <- app_assoc. }
        intros [|j] r' Hj; cbn in Hj.
        { injection Hj as <-. now rewrite Nat.add_0_r. }
        rewrite <- Nat.add_succ_comm. now apply Hrows.
      * split; [exact Htable|]. right. exists (S k), e.
        split; [exact Hraised|]. split.
        { rewrite Htxn. world_simpl. cbn [take]. now rewrite <- app_assoc. }
        cbn [length]. lia.
Qed.

(** C1, as stated, fails: when the database rejects the last row of a
    batch, nothing is committed, but the batch is not rolled back; the
    rows executed before the rejected one stay in the open transaction. *)
Lemma rejected_batch_not_rolled_back :
  ~ insert_atomic (host_last_row_rejected 3) TheConnection
      [sample_row 1; sample_row 2; sample_row 3] empty_world.
Proof.
  unfold insert_atomic. vm_compute.
  intros [[Hret _] | (_ & _ & Htxn)]; discriminate.
Qed.

(** ** The insertion inside a run *)

(** The on-time run in which every collaborator answers: ten rows are
    committed, nothing is left in the transaction and the connection is
    closed. *)
Example on_time_run_commits_and_closes :
  let out := generate_usage_data host_ok on_time empty_world in
  fst out = Returned tt /\
  length (table (snd out)) = 10%nat /\ txn (snd out) = [] /\
  session_open (snd out) = false /\
  trace (snd out) =
    [CallFromConnectionString;
     CallOpenWb "/tmp/wallet/ewallet.pem";
     CallDownloadBlob (Some "wallet-config") "ewallet.pem";
     CallOpenWb "/tmp/wallet/tnsnames.ora";
     CallDownloadBlob (Some "wallet-config") "tnsnames.ora";
     CallConnect; CallGenerate 10;
     CallCursor; CallExecuteMany 10; CallCommit; CallCursorClose; CallClose].
Proof. vm_compute. repeat split. Qed.


(** C2, at a failing input. When the database rejects a row of the
    batch, the exception leaves [insert_data] and then
    [generate_usage_data]: the run ends by raising it.  (An exception of
    [oracledb.connect] outside [DatabaseError] leaves the run the same
    way.) *)
Theorem insert_failure_escapes_run :
  fst (generate_usage_data (host_last_row_rejected 10) on_time empty_world) =
    Raised (Exn IntegrityError "ORA-02290: check constraint violated").
Proof. vm_compute. reflexivity. Qed.

(** C4, at a failing input. When the database rejects a row of the
    batch, the run ends without closing the connection: the session is
    still open, [close] was never called, and nine rows are left in its
    transaction. *)
Theorem insert_failure_leaves_connection_open :
  let w' := snd (generate_usage_data (host_last_row_rejected 10) on_time empty_world) in
  session_open w' = true /\ (CallClose ∉ trace w') /\ length (txn w') = 9%nat.
Proof.
  vm_compute. split; [reflexivity|]. split; [|reflexivity].
  intros Hin. apply list_elem_of_In in Hin. cbn in Hin. intuition discriminate.
Qed.

(** * Further properties of the job *)

(** ** The staged paths *)

Lemma append_inj_l (s a b : string) : s +:+ a = s +:+ b -> a = b.
Proof.
  induction s as [|c s IH]; cbn; intros H; [exact H|].
  injection H as H. now apply IH.
Qed.

Lemma prefix_append (s t : string) : String.prefix s (s +:+ t) = true.
Proof.
  induction s as [|c s IH]; simpl; [now destruct t|].
  destruct (Ascii.ascii_dec c c) as [_ | Hne]; [exact IH | now destruct Hne].
Qed.

(** Joining a directory with a name that does not start with a
    separator appends the name after at most one separator. *)
Lemma os_path_join_relative a b :
  startswith_sep b = false ->
  exists sep, (sep = "" \/ sep = "/") /\ os_path_join a b = a +:+ sep +:+ b.
Proof.
  intros Hb. unfold os_path_join. rewrite Hb.
  destruct (String.eqb a "" || endswith_sep a).
  - exists "". split; [now left | reflexivity].
  - exists "/". split; [now right | reflexivity].
Qed.

Lemma PEM_TNS_distinct host : PEM_PATH host <> TNS_PATH host.
Proof.
  unfold PEM_PATH, TNS_PATH, os_path_join. cbn [startswith_sep].
  destruct (String.eqb (WALLET_LOCATION host) "" || endswith_sep (WALLET_LOCATION host));
    intros H%append_inj_l; discriminate.
Qed.

(** X1. Whatever the temporary directory and the environment are, the
    two wallet files are staged at two different paths, both of them
    inside [WALLET_LOCATION]: one download never overwrites the other. *)
Theorem staged_paths_distinct_in_wallet host :
  PEM_PATH host <> TNS_PATH host /\
  String.prefix (WALLET_LOCATION host) (PEM_PATH host) = true /\
  String.prefix (WALLET_LOCATION host) (TNS_PATH host) = true.
Proof.
  split; [apply PEM_TNS_distinct|].
  unfold PEM_PATH, TNS_PATH.
  destruct (os_path_join_relative (WALLET_LOCATION host) "ewallet.pem" eq_refl)
    as (s1 & _ & ->).
  destruct (os_path_join_relative (WALLET_LOCATION host) "tnsnames.ora" eq_refl)
    as (s2 & _ & ->).
  split; apply prefix_append.
Qed.

(** ** What provisioning does to the file system *)

(** X2. Provisioning writes to the two staged paths and to nothing else:
    every other path keeps its contents, and no file is ever removed,
    not even when a fetch fails. *)
Theorem provisioning_touches_only_staged_paths host w :
  (forall p, p <> PEM_PATH host -> p <> TNS_PATH host ->
     files (snd (download_wallet_files host w)) !! p = files w !! p) /\
  (forall p, is_Some (files w !! p) ->
     is_Some (files (snd (download_wallet_files host w)) !! p)).
Proof.
  split; intros p.
  - provisioning_run; intros Hpem Htns;
      rewrite ?lookup_insert_ne by congruence; reflexivity.
  - provisioning_run; intros Hp;
      rewrite ?lookup_insert; repeat case_decide; eauto.
Qed.

Lemma provisioning_touches_only_staged_paths_witness :
  files (snd (download_wallet_files host_tns_missing
                (set_files {[ "/etc/hosts" := [Byte.x41] ]} empty_world)))
    !! "/etc/hosts" = Some [Byte.x41] /\
  is_Some (files (snd (download_wallet_files host_tns_missing
                         (set_files {[ "/tmp/wallet/tnsnames.ora" := [Byte.x41] ]}
                            empty_world)))
             !! "/tmp/wallet/tnsnames.ora").
Proof.
  split.
  - rewrite (proj1 (provisioning_touches_only_staged_paths host_tns_missing
                      (set_files {[ "/etc/hosts" := [Byte.x41] ]} empty_world))
               "/etc/hosts"); [reflexivity | discriminate | discriminate].
  - apply (proj2 (provisioning_touches_only_staged_paths host_tns_missing
                    (set_files {[ "/tmp/wallet/tnsnames.ora" := [Byte.x41] ]}
                       empty_world))).
    vm_compute. eauto.
Defined.

Ltac staged_lookup :=
  rewrite ?lookup_insert; repeat case_decide; congruence.

(** X3. When storage and the file system answer every call, provisioning
    leaves at each staged path exactly the bytes of its blob, and logs
    one INFO entry for each download and nothing else. *)
Theorem provisioning_stages_both_blobs host w pem tns :
  from_connection_string host (getenv host "AZURE_STORAGE_CONNECTION_STRING") = None ->
  open_wb host (PEM_PATH host) = None ->
  open_wb host (TNS_PATH host) = None ->
  download_blob host (getenv host "CONFIG_CONTAINER") "ewallet.pem" = Returned pem ->
  download_blob host (getenv host "CONFIG_CONTAINER") "tnsnames.ora" = Returned tns ->
  write_error host (PEM_PATH host) = None ->
  write_error host (TNS_PATH host) = None ->
  let w' := snd (download_wallet_files host w) in
  files w' !! PEM_PATH host = Some pem /\
  files w' !! TNS_PATH host = Some tns /\
  log w' = log w ++ [(INFO, "Downloaded ewallet.pem to " +:+ PEM_PATH host);
                     (INFO, "Downloaded tnsnames.ora to " +:+ TNS_PATH host)].
Proof.
  pose proof (PEM_TNS_distinct host) as Hne. revert Hne. cbv zeta.
  provisioning_run; intros; simplify_eq;
    (split; [staged_lookup|]); (split; [staged_lookup|]);
    now rewrite <- app_assoc.
Qed.

Lemma provisioning_stages_both_blobs_witness :
  let w' := snd (download_wallet_files host_ok empty_world) in
  files w' !! PEM_PATH host_ok = Some [Byte.x2d; Byte.x2d] /\
  files w' !! TNS_PATH host_ok = Some [Byte.x2d; Byte.x2d] /\
  log w' = log empty_world ++
             [(INFO, "Downloaded ewallet.pem to " +:+ PEM_PATH host_ok);
              (INFO, "Downloaded tnsnames.ora to " +:+ TNS_PATH host_ok)].
Proof.
  apply (provisioning_stages_both_blobs host_ok empty_world); reflexivity.
Defined.

(** X4. When the second blob cannot be fetched, the first file stays
    staged with its blob, but the second file has already been opened
    for writing: it is left empty, whatever it held before.  One INFO
    and one ERROR entry are logged. *)
Theorem second_fetch_failure_truncates host w pem e :
  from_connection_string host (getenv host "AZURE_STORAGE_CONNECTION_STRING") = None ->
  open_wb host (PEM_PATH host) = None ->
  open_wb host (TNS_PATH host) = None ->
  download_blob host (getenv host "CONFIG_CONTAINER") "ewallet.pem" = Returned pem ->
  write_error host (PEM_PATH host) = None ->
  download_blob host (getenv host "CONFIG_CONTAINER") "tnsnames.ora" = Raised e ->
  let w' := snd (download_wallet_files host w) in
  files w' !! PEM_PATH host = Some pem /\
  files w' !! TNS_PATH host = Some [] /\
  log w' = log w ++ [(INFO, "Downloaded ewallet.pem to " +:+ PEM_PATH host);
                     (ERROR, "Error downloading files from Azure Blob Storage: "
                               +:+ exn_str e)].
Proof.
  pose proof (PEM_TNS_distinct host) as Hne. revert Hne. cbv zeta.
  provisioning_run; intros; simplify_eq;
    (split; [staged_lookup|]); (split; [staged_lookup|]);
    now rewrite <- app_assoc.
Qed.

Lemma second_fetch_failure_truncates_witness :
  let w' := snd (download_wallet_files host_tns_missing
                   (set_files {[ "/tmp/wallet/tnsnames.ora" := [Byte.x41] ]} empty_world)) in
  files w' !! PEM_PATH host_tns_missing = Some [Byte.x2d; Byte.x2d] /\
  files w' !! TNS_PATH host_tns_missing = Some [] /\
  log w' = [] ++
           [(INFO, "Downloaded ewallet.pem to " +:+ PEM_PATH host_tns_missing);
            (ERROR, "Error downloading files from Azure Blob Storage: "
                      +:+ "The specified blob does not exist.")].
Proof.
  apply (second_fetch_failure_truncates host_tns_missing
           (set_files {[ "/tmp/wallet/tnsnames.ora" := [Byte.x41] ]} empty_world)
           [Byte.x2d; Byte.x2d]
           (Exn ResourceNotFoundError "The specified blob does not exist."));
    reflexivity.
Defined.

(** X5. When the first artifact cannot be fetched, the loop is left at
    once and the second artifact is not attempted.  With the container
    name unset or empty, [get_blob_client] refuses before any file is
    opened: no file is touched and the only call made is the creation of
    the storage client.  With a container name, the first file is opened
    and, the fetch raising, left empty; no call is made for the second
    artifact and its file keeps what it held.  Either way exactly one
    ERROR entry is logged. *)
Theorem first_fetch_failure_skips_second host w :
  from_connection_string host (getenv host "AZURE_STORAGE_CONNECTION_STRING") = None ->
  let w' := snd (download_wallet_files host w) in
  (named (getenv host "CONFIG_CONTAINER") = false ->
   files w' = files w /\
   trace w' = trace w ++ [CallFromConnectionString] /\
   log w' = log w ++ [(ERROR, "Error downloading files from Azure Blob Storage: "
                                +:+ "Please specify a container name and blob name.")]) /\
  (forall e,
   named (getenv host "CONFIG_CONTAINER") = true ->
   open_wb host (PEM_PATH host) = None ->
   download_blob host (getenv host "CONFIG_CONTAINER") "ewallet.pem" = Raised e ->
   files w' !! PEM_PATH host = Some [] /\
   files w' !! TNS_PATH host = files w !! TNS_PATH host /\
   trace w' = trace w ++
     [CallFromConnectionString; CallOpenWb (PEM_PATH host);
      CallDownloadBlob (getenv host "CONFIG_CONTAINER") "ewallet.pem"] /\
   log w' = log w ++ [(ERROR, "Error downloading files from Azure Blob Storage: "
                                +:+ exn_str e)]).
Proof.
  pose proof (PEM_TNS_distinct host) as Hne. revert Hne. cbv zeta.
  provisioning_run; intros; simplify_eq; split; intros; simplify_eq;
    first
      [ now repeat split
      | (split; [staged_lookup|]); (split; [staged_lookup|]);
        (split; [now rewrite <- !app_assoc | reflexivity]) ].
Qed.

Lemma first_fetch_failure_skips_second_witness :
  (let w := set_files {[ "/tmp/wallet/ewallet.pem" := [Byte.x41] ]} empty_world in
   let w' := snd (download_wallet_files host_no_container w) in
   files w' = files w /\
   trace w' = trace w ++ [CallFromConnectionString] /\
   log w' = log w ++ [(ERROR, "Error downloading files from Azure Blob Storage: "
                                +:+ "Please specify a container name and blob name.")]) /\
  (let w' := snd (download_wallet_files host_pem_missing empty_world) in
   files w' !! PEM_PATH host_pem_missing = Some [] /\
   files w' !! TNS_PATH host_pem_missing = files empty_world !! TNS_PATH host_pem_missing /\
   trace w' = trace empty_world ++
     [CallFromConnectionString; CallOpenWb (PEM_PATH host_pem_missing);
      CallDownloadBlob (getenv host_pem_missing "CONFIG_CONTAINER") "ewallet.pem"] /\
   log w' = log empty_world ++
              [(ERROR, "Error downloading files from Azure Blob Storage: "
                         +:+ "The specified blob does not exist.")]).
Proof.
  split.
  - apply (proj1 (first_fetch_failure_skips_second host_no_container
                    (set_files {[ "/tmp/wallet/ewallet.pem" := [Byte.x41] ]} empty_world)
                    eq_refl)).
    reflexivity.
  - apply (proj2 (first_fetch_failure_skips_second host_pem_missing empty_world eq_refl)
             (Exn ResourceNotFoundError "The specified blob does not exist."));
      reflexivity.
Defined.

(** X6. Provisioning never retries: the calls it makes are an initial
    part of one fixed sequence, in which the storage client is built
    once and each of the two files is opened once and its blob requested
    once, the first before the second. *)
Theorem provisioning_never_retries host w :
  exists l,
    trace (snd (download_wallet_files host w)) = trace w ++ l /\
    l `prefix_of`
      [CallFromConnectionString;
       CallOpenWb (PEM_PATH host);
       CallDownloadBlob (getenv host "CONFIG_CONTAINER") "ewallet.pem";
       CallOpenWb (TNS_PATH host);
       CallDownloadBlob (getenv host "CONFIG_CONTAINER") "tnsnames.ora"].
Proof.
  provisioning_run; eexists;
    (split; [rewrite <- ?app_assoc; reflexivity | eexists; reflexivity]).
Qed.

(** ** What an insertion leaves behind *)

Lemma set_txn_same w : set_txn (txn w) w = w.
Proof. now destruct w. Qed.

Lemma execute_rows_first_rejected host rows : forall i w k r e,
  (forall j r', (j < k)%nat -> rows !! j = Some r' -> row_error host (i + j) r' = None) ->
  rows !! k = Some r ->
  row_error host (i + k) r = Some e ->
  execute_rows host i rows w = (Raised e, set_txn (txn w ++ take k rows) w).
Proof.
  induction rows as [|r0 rows IH]; intros i w k r e Hbefore Hk Hrow; [discriminate|].
  destruct k as [|k]; cbn in Hk.
  - injection Hk as ->. rewrite Nat.add_0_r in Hrow.
    rewrite (execute_rows_rejected _ _ _ _ _ _ Hrow).
    cbn [take]. now rewrite app_nil_r, set_txn_same.
  - rewrite execute_rows_accepted.
    2:{ rewrite <- (Nat.add_0_r i). apply Hbefore; [lia | reflexivity]. }
    rewrite (IH (S i) _ k r e); [| | exact Hk | now rewrite Nat.add_succ_comm].
    + cbn [take]. world_simpl. unfold set_txn. cbn. now rewrite <- app_assoc.
    + intros j r' Hj Hr'. rewrite Nat.add_succ_comm. apply Hbefore; [lia | exact Hr'].
Qed.

Lemma execute_rows_all_accepted host rows : forall i w,
  (forall j r, rows !! j = Some r -> row_error host (i + j) r = None) ->
  execute_rows host i rows w = (Returned tt, set_txn (txn w ++ rows) w).
Proof.
  induction rows as [|r0 rows IH]; intros i w Hall.
  - cbn. now rewrite app_nil_r, set_txn_same.
  - rewrite execute_rows_accepted.
    2:{ rewrite <- (Nat.add_0_r i). now apply Hall. }
    rewrite IH.
    + unfold set_txn. cbn. now rewrite <- app_assoc.
    + intros j r Hr. rewrite Nat.add_succ_comm. now apply Hall.
Qed.

Lemma insert_data_first_rejected host connection rows w k r e :
  (forall j r', (j < k)%nat -> rows !! j = Some r' -> row_error host j r' = None) ->
  rows !! k = Some r ->
  row_error host k r = Some e ->
  insert_data host connection rows w =
    (Raised e,
     set_txn (txn w ++ take k rows)
       (set_trace (trace w ++ [CallCursor; CallExecuteMany (length rows)]) w)).
Proof.
  intros Hbefore Hk Hrow.
  unfold insert_data, cursor_executemany, called.
  unfold bind at 1. unfold modify at 1. unfold bind at 1.
  unfold bind at 1. unfold modify at 1.
  rewrite (execute_rows_first_rejected host rows 0 _ k r e Hbefore Hk Hrow).
  unfold set_txn, set_trace. cbn. now rewrite <- app_assoc.
Qed.

(** X7. [insert_data] stops at the first row the database rejects: that
    row's exception is raised, the rows before it (and only they) are
    added to the open transaction, the table is untouched, and neither
    [commit] nor the cursor's [close] is called, nor anything logged. *)
Theorem insert_data_stops_at_first_rejected_row host connection rows w k r e :
  (forall j r', (j < k)%nat -> rows !! j = Some r' -> row_error host j r' = None) ->
  rows !! k = Some r ->
  row_error host k r = Some e ->
  insert_data host connection rows w =
    (Raised e,
     set_txn (txn w ++ take k rows)
       (set_trace (trace w ++ [CallCursor; CallExecuteMany (length rows)]) w)).
Proof.
  intros Hbefore Hk Hrow.
  unfold insert_data, cursor_executemany, called.
  unfold bind at 1. unfold modify at 1. unfold bind at 1.
  unfold bind at 1. unfold modify at 1.
  rewrite (execute_rows_first_rejected host rows 0 _ k r e Hbefore Hk Hrow).
  unfold set_txn, set_trace. cbn. now rewrite <- app_assoc.
Qed.

Lemma insert_data_stops_at_first_rejected_row_witness :
  insert_data (host_last_row_rejected 3) TheConnection
    [sample_row 1; sample_row 2; sample_row 3] empty_world =
    (Raised (Exn IntegrityError "ORA-02290: check constraint violated"),
     set_txn (txn empty_world ++ take 2 [sample_row 1; sample_row 2; sample_row 3])
       (set_trace (trace empty_world ++ [CallCursor; CallExecuteMany 3]) empty_world)).
Proof.
  apply (insert_data_stops_at_first_rejected_row (host_last_row_rejected 3) TheConnection
           [sample_row 1; sample_row 2; sample_row 3] empty_world 2 (sample_row 3)).
  - intros [|[|j]] r' Hj Hr'; [reflexivity | reflexivity | lia].
  - reflexivity.
  - reflexivity.
Defined.

(** X8. When every row is accepted and the commit itself fails, the
    commit's exception is raised, the whole batch stays in the open
    transaction, the table is untouched, and the cursor is not closed. *)
Theorem insert_data_commit_failure host connection rows w e :
  (forall j r, rows !! j = Some r -> row_error host j r = None) ->
  commit_error host = Some e ->
  insert_data host connection rows w =
    (Raised e,
     set_txn (txn w ++ rows)
       (set_trace (trace w ++ [CallCursor; CallExecuteMany (length rows); CallCommit]) w)).
Proof.
  intros Hall Hcommit.
  unfold insert_data, cursor_executemany, connection_commit, called.
  unfold bind at 1. unfold modify at 1. unfold bind at 1.
  unfold bind at 1. unfold modify at 1.
  rewrite (execute_rows_all_accepted host rows 0 _ Hall).
  unfold bind, modify, check. rewrite Hcommit.
  unfold raise, set_txn, set_trace. cbn. now rewrite <- !app_assoc.
Qed.

Lemma insert_data_commit_failure_witness :
  insert_data host_commit_fails TheConnection [sample_row 1; sample_row 2] empty_world =
    (Raised (Exn OperationalError "ORA-03113: end-of-file on communication channel"),
     set_txn (txn empty_world ++ [sample_row 1; sample_row 2])
       (set_trace (trace empty_world ++ [CallCursor; CallExecuteMany 2; CallCommit])
          empty_world)).
Proof.
  apply (insert_data_commit_failure host_commit_fails TheConnection
           [sample_row 1; sample_row 2] empty_world); reflexivity.
Defined.

(** ** Whole runs *)

Lemma insert_data_committed host connection rows w :
  (forall j r, rows !! j = Some r -> row_error host j r = None) ->
  commit_error host = None ->
  insert_data host connection rows w =
    (Returned tt,
     set_log (log w ++ [(INFO, "Inserted " +:+ pretty (length rows)
                                 +:+ " rows into the database.")])
       (set_txn []
          (set_table (table w ++ txn w ++ rows)
             (set_trace (trace w ++ [CallCursor; CallExecuteMany (length rows);
                                     CallCommit; CallCursorClose]) w)))).
Proof.
  intros Hall Hcommit.
  unfold insert_data, cursor_executemany, connection_commit, called, logging.
  unfold bind at 1. unfold modify at 1. unfold bind at 1.
  unfold bind at 1. unfold modify at 1.
  rewrite (execute_rows_all_accepted host rows 0 _ Hall).
  unfold bind, modify, check. rewrite Hcommit.
  unfold ret, set_log, set_txn, set_table, set_trace. cbn. now rewrite <- !app_assoc.
Qed.

Lemma insert_data_commit_failed host connection rows w e :
  (forall j r, rows !! j = Some r -> row_error host j r = None) ->
  commit_error host = Some e ->
  insert_data host connection rows w =
    (Raised e,
     set_txn (txn w ++ rows)
       (set_trace (trace w ++ [CallCursor; CallExecuteMany (length rows); CallCommit]) w)).
Proof.
  intros Hall Hcommit.
  unfold insert_data, cursor_executemany, connection_commit, called.
  unfold bind at 1. unfold modify at 1. unfold bind at 1.
  unfold bind at 1. unfold modify at 1.
  rewrite (execute_rows_all_accepted host rows 0 _ Hall).
  unfold bind, modify, check. rewrite Hcommit.
  unfold raise, set_txn, set_trace. cbn. now rewrite <- !app_assoc.
Qed.

(** Either the database accepts every row of a batch, or there is a
    first row it rejects. *)
Lemma accepted_or_first_rejected host (rows : list DataTuple) : forall i,
  (forall j r, rows !! j = Some r -> row_error host (i + j) r = None) \/
  (exists k r e,
     rows !! k = Some r /\ row_error host (i + k) r = Some e /\
     forall j r', (j < k)%nat -> rows !! j = Some r' -> row_error host (i + j) r' = None).
Proof.
  induction rows as [|r0 rows IH]; intros i.
  - left. intros j r Hj. discriminate.
  - destruct (row_error host i r0) as [e|] eqn:Hrow.
    + right. exists 0%nat, r0, e. rewrite Nat.add_0_r.
      split; [reflexivity|]. split; [exact Hrow|]. intros j r' Hj. lia.
    + destruct (IH (S i)) as [Hall | (k & r & e & Hk & Hr & Hbefore)].
      * left. intros [|j] r Hj; cbn in Hj.
        { injection Hj as <-. now rewrite Nat.add_0_r. }
        rewrite <- Nat.add_succ_comm. now apply Hall.
      * right. exists (S k), r, e. split; [exact Hk|].
        split; [now rewrite <- Nat.add_succ_comm|].
        intros [|j] r' Hj Hr'; cbn in Hr'.
        { injection Hr' as <-. now rewrite Nat.add_0_r. }
        rewrite <- Nat.add_succ_comm. apply Hbefore; [lia | exact Hr'].
Qed.

(** C1, amended. For a batch inserted in a fresh transaction exactly
    one of three things happens, and the database's answers decide
    which.  Every row is accepted and the commit succeeds: [insert_data]
    returns, and all the records are committed together, in order,
    leaving the transaction empty.  Or some row is rejected: the
    exception of the first rejected row is raised to the caller, the
    table is unchanged, so that zero rows of the batch are observable in
    it, and exactly the rows before the rejected one stay pending in the
    session's open transaction, for [insert_data] rolls nothing back.
    Or every row is accepted and the commit fails: the commit's
    exception is raised, the table is unchanged and the whole batch
    stays pending. *)
Theorem insert_data_all_or_nothing host connection rows w :
  txn w = [] ->
  let out := insert_data host connection rows w in
  ((forall j r, rows !! j = Some r -> row_error host j r = None) /\
   commit_error host = None /\
   fst out = Returned tt /\
   table (snd out) = table w ++ rows /\ txn (snd out) = []) \/
  (exists k r e,
     rows !! k = Some r /\ row_error host k r = Some e /\
     (forall j r', (j < k)%nat -> rows !! j = Some r' -> row_error host j r' = None) /\
     fst out = Raised e /\
     table (snd out) = table w /\ txn (snd out) = take k rows) \/
  (exists e,
     (forall j r, rows !! j = Some r -> row_error host j r = None) /\
     commit_error host = Some e /\
     fst out = Raised e /\
     table (snd out) = table w /\ txn (snd out) = rows).
Proof.
  intros Hfresh out. subst out.
  destruct (accepted_or_first_rejected host rows 0)
    as [Hall | (k & r & e & Hk & Hr & Hbefore)]; cbn [Nat.add] in *.
  - destruct (commit_error host) as [e|] eqn:Hcommit.
    + right. right. exists e.
      rewrite (insert_data_commit_failed _ _ _ _ _ Hall Hcommit). world_simpl.
      rewrite Hfresh. now repeat split.
    + left. rewrite (insert_data_committed _ _ _ _ Hall Hcommit). world_simpl.
      rewrite Hfresh. now repeat split.
  - right. left. exists k, r, e.
    rewrite (insert_data_first_rejected _ _ _ _ _ _ _ Hbefore Hk Hr). world_simpl.
    rewrite Hfresh. now repeat split.
Qed.

Lemma insert_data_all_or_nothing_witness :
  let rows := [sample_row 1; sample_row 2; sample_row 3] in
  let host := host_last_row_rejected 3 in
  let out := insert_data host TheConnection rows empty_world in
  ((forall j r, rows !! j = Some r -> row_error host j r = None) /\
   commit_error host = None /\
   fst out = Returned tt /\
   table (snd out) = table empty_world ++ rows /\ txn (snd out) = []) \/
  (exists k r e,
     rows !! k = Some r /\ row_error host k r = Some e /\
     (forall j r', (j < k)%nat -> rows !! j = Some r' -> row_error host j r' = None) /\
     fst out = Raised e /\
     table (snd out) = table empty_world /\ txn (snd out) = take k rows) \/
  (exists e,
     (forall j r, rows !! j = Some r -> row_error host j r = None) /\
     commit_error host = Some e /\
     fst out = Raised e /\
     table (snd out) = table empty_world /\ txn (snd out) = rows).
Proof.
  apply (insert_data_all_or_nothing (host_last_row_rejected 3) TheConnection
           [sample_row 1; sample_row 2; sample_row 3] empty_world).
  reflexivity.
Defined.

Lemma insert_data_table host connection rows w :
  txn w = [] ->
  let out := insert_data host connection rows w in
  (fst out = Returned tt /\ table (snd out) = table w ++ rows) \/
  ((exists e, fst out = Raised e) /\ table (snd out) = table w).
Proof.
  intros Hfresh out. subst out.
  unfold insert_data, cursor_executemany, connection_commit, called, logging.
  unfold bind, modify, check, ret, raise. world_simpl.
  set (w2 := set_trace _ (set_trace _ w)).
  destruct (execute_rows_cases host rows 0 w2)
    as [Htable [(Hret & Htxn & _) | (k & e & Hraised & _ & _)]].
  - destruct (execute_rows host 0 rows w2) as [[[] | e] w3]; [|discriminate].
    cbn [fst snd] in *. subst w2. cbn in Htable, Htxn. rewrite Hfresh in Htxn.
    destruct (commit_error host) as [e|]; world_simpl.
    + right. split; [now exists e | exact Htable].
    + left. now rewrite Htable, Htxn.
  - right. destruct (execute_rows host 0 rows w2) as [[[] | e'] w3]; [discriminate|].
    cbn [fst snd] in *. subst w2. split; [now exists e' | exact Htable].
Qed.

Lemma generate_usage_data_connected host myTimer w rows rs' :
  connect_answer host (provisioned host myTimer w) = None ->
  generate_sample_data_tuples 10 (np_random w) = (Returned rows, rs') ->
  generate_usage_data host myTimer w =
    (insert_data host TheConnection rows ;;; connection_close TheConnection)
      (inserting host myTimer w rs').
Proof.
  intros Hconnect Hgen.
  destruct (provisioned_step host myTimer w) as [_ (Hrandom & _)].
  rewrite generate_usage_data_provisioned. unfold bind at 1.
  rewrite get_db_connection_cases, Hconnect. cbv zeta.
  unfold bind at 1. unfold called at 1, modify at 1.
  unfold bind at 1. unfold with_np_random. world_simpl.
  rewrite Hrandom, Hgen. unfold inserting, set_np_random, set_trace, set_session_open.
  cbn. now rewrite <- app_assoc.
Qed.

Lemma generated_batch_in_domain n rs :
  0 <= n <= NPY_MAX_INTP ->
  exists rows rs',
    generate_sample_data_tuples n rs = (Returned rows, rs') /\
    length rows = Z.to_nat n /\ Forall in_domain rows.
Proof.
  intros Hn.
  pose proof (generate_sample_data_tuples_returned n rs Hn) as Hgen.
  cbv zeta in Hgen. eexists _, _. split; [exact Hgen|]. split.
  - now rewrite length_fmap, length_seq.
  - apply Forall_fmap, Forall_forall. intros i Hi%elem_of_seq.
    unfold in_domain, row_of, compose.
    cbn [time_of_day season household_size day_of_week is_anomaly].
    rewrite !nth_drawn by lia.
    split; [apply choice_at_elem|]. split; [apply choice_at_elem|].
    split; [apply randint_1_6|].
    split; [apply choice_at_elem | apply int_of_bool_flag].
Qed.

Lemma provisioning_call_elem c l :
  Forall provisioning_call l -> ~ provisioning_call c -> c ∉ l.
Proof.
  intros Hall Hc Hin. apply Hc. rewrite Forall_forall in Hall. now apply Hall.
Qed.

(** X9. When the connection opens, the database accepts every row and
    the commit succeeds, the run returns normally: ten records, all in
    their domains, are appended to the table in one commit; the
    transaction is empty, the connection is closed, and the last log
    entry reports ten inserted rows. *)
Theorem run_commits_ten_rows host myTimer w :
  txn w = [] ->
  connect_answer host (snd (download_wallet_files host w)) = None ->
  (forall i r, row_error host i r = None) ->
  commit_error host = None ->
  let out := generate_usage_data host myTimer w in
  fst out = Returned tt /\
  (exists rows,
     length rows = 10%nat /\ Forall in_domain rows /\
     table (snd out) = table w ++ rows) /\
  txn (snd out) = [] /\
  session_open (snd out) = false /\
  (exists earlier,
     log (snd out) = earlier ++ [(INFO, "Inserted 10 rows into the database.")]).
Proof.
  intros Hfresh Hconnect Hrows Hcommit out. subst out.
  rewrite <- connect_answer_provisioned with (myTimer := myTimer) in Hconnect.
  destruct (generated_batch_in_domain 10 (np_random w) ltac:(split; discriminate))
    as (rows & rs' & Hgen & Hlen & Hdom).
  destruct (provisioned_step host myTimer w) as [_ (_ & Htable & Htxn & _)].
  rewrite (generate_usage_data_connected _ _ _ _ _ Hconnect Hgen).
  unfold bind.
  rewrite insert_data_committed by (intros; apply Hrows || exact Hcommit).
  unfold connection_close, called, bind, modify, inserting. world_simpl.
  split; [reflexivity|]. split.
  { exists rows. rewrite Htable, Htxn, Hfresh. now repeat split. }
  split; [reflexivity|]. split; [reflexivity|].
  eexists. rewrite Hlen. reflexivity.
Qed.

Lemma run_commits_ten_rows_witness :
  let out := generate_usage_data host_ok on_time empty_world in
  fst out = Returned tt /\
  (exists rows,
     length rows = 10%nat /\ Forall in_domain rows /\
     table (snd out) = table empty_world ++ rows) /\
  txn (snd out) = [] /\
  session_open (snd out) = false /\
  (exists earlier,
     log (snd out) = earlier ++ [(INFO, "Inserted 10 rows into the database.")]).
Proof.
  apply (run_commits_ten_rows host_ok on_time empty_world); reflexivity.
Defined.

(** X10. Whatever the collaborators answer, a run that starts with an
    empty transaction leaves the table either as it found it or longer
    by one whole batch of ten in-domain records: readers never see part
    of a batch. *)
Theorem run_commits_whole_batch_or_nothing host myTimer w :
  txn w = [] ->
  let out := generate_usage_data host myTimer w in
  table (snd out) = table w \/
  exists rows,
    length rows = 10%nat /\ Forall in_domain rows /\
    table (snd out) = table w ++ rows.
Proof.
  intros Hfresh out. subst out.
  destruct (provisioned_step host myTimer w) as [_ (_ & Htable & Htxn & _)].
  destruct (connect_answer host (provisioned host myTimer w)) as [e|] eqn:Hconnect.
  - left. rewrite (generate_usage_data_not_connected _ _ _ _ Hconnect).
    now destruct (is_DatabaseError e).
  - destruct (generated_batch_in_domain 10 (np_random w) ltac:(split; discriminate))
      as (rows & rs' & Hgen & Hlen & Hdom).
    rewrite (generate_usage_data_connected _ _ _ _ _ Hconnect Hgen).
    assert (Hstart : txn (inserting host myTimer w rs') = [])
      by (unfold inserting; world_simpl; now rewrite Htxn).
    assert (Htable' : table (inserting host myTimer w rs') = table w)
      by (unfold inserting; world_simpl; exact Htable).
    pose proof (insert_data_table host TheConnection rows _ Hstart) as Hins.
    cbv zeta in Hins. unfold bind.
    destruct (insert_data host TheConnection rows (inserting host myTimer w rs'))
      as [[[] | e] w3]; cbn [fst snd] in Hins.
    + right. exists rows. split; [exact Hlen|]. split; [exact Hdom|].
      destruct Hins as [[_ Hins] | [[e He] _]]; [|discriminate].
      unfold connection_close, called, bind, modify. world_simpl.
      now rewrite Hins, Htable'.
    + left. destruct Hins as [[Hret _] | [_ Hins]]; [discriminate|].
      cbn [snd]. now rewrite Hins.
Qed.

Lemma run_commits_whole_batch_or_nothing_witness :
  let out := generate_usage_data (host_last_row_rejected 10) on_time empty_world in
  table (snd out) = table empty_world \/
  exists rows,
    length rows = 10%nat /\ Forall in_domain rows /\
    table (snd out) = table empty_world ++ rows.
Proof.
  apply (run_commits_whole_batch_or_nothing (host_last_row_rejected 10) on_time empty_world).
  reflexivity.
Defined.

(** X11. When the connection opens and the database rejects one of the
    generated rows, the run ends by raising that row's exception: the
    table is untouched, the rows before the rejected one are left in
    the transaction of a session that is still open, and neither
    [commit] nor [close] has been called. *)
Theorem run_with_rejected_row host myTimer w rows rs' k r e :
  connect_answer host (snd (download_wallet_files host w)) = None ->
  generate_sample_data_tuples 10 (np_random w) = (Returned rows, rs') ->
  (forall j r', (j < k)%nat -> rows !! j = Some r' -> row_error host j r' = None) ->
  rows !! k = Some r ->
  row_error host k r = Some e ->
  let out := generate_usage_data host myTimer w in
  fst out = Raised e /\
  table (snd out) = table w /\
  txn (snd out) = txn w ++ take k rows /\
  session_open (snd out) = true /\
  exists l, trace (snd out) = trace w ++ l /\ (CallCommit ∉ l) /\ (CallClose ∉ l).
Proof.
  intros Hconnect Hgen Hbefore Hk Hrow out. subst out.
  rewrite <- connect_answer_provisioned with (myTimer := myTimer) in Hconnect.
  destruct (provisioned_step host myTimer w)
    as [(l1 & Hl1 & Hp) (_ & Htable & Htxn & _)].
  rewrite (generate_usage_data_connected _ _ _ _ _ Hconnect Hgen).
  unfold bind.
  rewrite (insert_data_first_rejected _ _ _ _ _ _ _ Hbefore Hk Hrow).
  unfold inserting. world_simpl.
  split; [reflexivity|]. split; [exact Htable|]. split; [now rewrite Htxn|].
  split; [reflexivity|].
  exists (l1 ++ [CallConnect; CallGenerate 10; CallCursor; CallExecuteMany (length rows)]).
  split; [now rewrite Hl1, <- !app_assoc|].
  split; intros [Hin | Hin]%elem_of_app.
  - now apply (provisioning_call_elem _ _ Hp) in Hin.
  - apply list_elem_of_In in Hin. cbn in Hin. intuition discriminate.
  - now apply (provisioning_call_elem _ _ Hp) in Hin.
  - apply list_elem_of_In in Hin. cbn in Hin. intuition discriminate.
Qed.

Lemma run_with_rejected_row_witness :
  exists rows rs',
    generate_sample_data_tuples 10 (np_random empty_world) = (Returned rows, rs') /\
    let out := generate_usage_data (host_last_row_rejected 10) on_time empty_world in
    fst out = Raised (Exn IntegrityError "ORA-02290: check constraint violated") /\
    table (snd out) = table empty_world /\
    txn (snd out) = txn empty_world ++ take 9 rows /\
    session_open (snd out) = true /\
    exists l, trace (snd out) = trace empty_world ++ l /\
              (CallCommit ∉ l) /\ (CallClose ∉ l).
Proof.
  destruct (generated_batch_in_domain 10 (np_random empty_world) ltac:(split; discriminate))
    as (rows & rs' & Hgen & Hlen & _).
  exists rows, rs'. split; [exact Hgen|].
  destruct (lookup_lt_is_Some_2 rows 9 ltac:(rewrite Hlen; cbn; lia)) as [r Hr].
  apply (run_with_rejected_row (host_last_row_rejected 10) on_time empty_world
           rows rs' 9 r (Exn IntegrityError "ORA-02290: check constraint violated")).
  - reflexivity.
  - exact Hgen.
  - intros j r' Hj _. cbn. destruct (Nat.eqb_spec j 9); [lia | reflexivity].
  - exact Hr.
  - reflexivity.
Defined.

(** ** The lateness flag *)

Lemma log_blind_ret {A} (a : A) : log_blind (ret a).
Proof. intros w l. exists []. cbn. now rewrite !app_nil_r. Qed.

Lemma log_blind_raise {A} e : log_blind (@raise World A e).
Proof. intros w l. exists []. cbn. now rewrite !app_nil_r. Qed.

Lemma log_blind_modify f :
  (forall w l, f (set_log l w) = set_log l (f w)) ->
  (forall w, log (f w) = log w) ->
  log_blind (modify f).
Proof.
  intros Hcommute Hlog w l. exists []. unfold modify. cbn [fst snd].
  rewrite Hlog, Hcommute, !app_nil_r. now split.
Qed.

Lemma log_blind_logging lv msg : log_blind (logging lv msg).
Proof. intros w l. now exists [(lv, msg)]. Qed.

Lemma log_blind_bind {A B} (m : M World A) (k : A -> M World B) :
  log_blind m -> (forall a, log_blind (k a)) -> log_blind (bind m k).
Proof.
  intros Hm Hk w l. unfold bind.
  destruct (Hm w l) as (added1 & Hlog1 & Heq1). rewrite Heq1.
  destruct (m w) as [[a | e] w1]; cbn [fst snd] in *.
  - destruct (Hk a w1 (l ++ added1)) as (added2 & Hlog2 & Heq2). rewrite Heq2.
    exists (added1 ++ added2). rewrite Hlog2, Hlog1, !app_assoc. now split.
  - exists added1. now split.
Qed.

Lemma log_blind_try_except {A} (body : M World A) handles handler :
  log_blind body -> (forall e, log_blind (handler e)) ->
  log_blind (try_except body handles handler).
Proof.
  intros Hb Hh w l. unfold try_except.
  destruct (Hb w l) as (added1 & Hlog1 & Heq1). rewrite Heq1.
  destruct (body w) as [[a | e] w1]; cbn [fst snd] in *.
  - exists added1. now split.
  - destruct (handles e).
    + destruct (Hh e w1 (l ++ added1)) as (added2 & Hlog2 & Heq2). rewrite Heq2.
      exists (added1 ++ added2). rewrite Hlog2, Hlog1, !app_assoc. now split.
    + exists added1. now split.
Qed.

Lemma log_blind_for_each {A} (xs : list A) (body : A -> M World unit) :
  (forall x, log_blind (body x)) -> log_blind (for_each xs body).
Proof.
  intros Hb. induction xs as [|x xs IH]; cbn [for_each].
  - apply log_blind_ret.
  - apply log_blind_bind; [apply Hb | intros _; exact IH].
Qed.

Lemma log_blind_check o : log_blind (check o).
Proof. destruct o; [apply log_blind_raise | apply log_blind_ret]. Qed.

Lemma log_blind_subscript d key : log_blind (@subscript World d key).
Proof.
  unfold subscript. destruct (d !! key); [apply log_blind_ret | apply log_blind_raise].
Qed.

Ltac blind :=
  repeat first
    [ apply log_blind_bind; [|intros ?]
    | apply log_blind_check
    | apply log_blind_ret
    | apply log_blind_raise
    | apply log_blind_logging
    | apply log_blind_subscript
    | apply log_blind_modify; [intros ? ?; reflexivity | intros ?; reflexivity]
    | match goal with
      | |- log_blind (match ?x with _ => _ end) => destruct x
      end ].

Lemma log_blind_download_wallet_files host : log_blind (download_wallet_files host).
Proof.
  unfold download_wallet_files, download_wallet_files_body.
  apply log_blind_try_except; [|intros e; apply log_blind_logging].
  apply log_blind_bind; [unfold called; blind | intros _].
  apply log_blind_bind; [apply log_blind_check | intros _].
  apply log_blind_for_each. intros d.
  unfold download_file, called, write_file. blind.
Qed.

Lemma log_blind_get_db_connection host : log_blind (get_db_connection host).
Proof.
  intros w l. rewrite !get_db_connection_cases. cbv zeta.
  change (connect_answer host (set_log l w)) with (connect_answer host w).
  destruct (connect_answer host w) as [e|].
  - destruct (is_DatabaseError e).
    + now eexists [_].
    + exists []. cbn. now rewrite !app_nil_r.
  - exists []. cbn. now rewrite !app_nil_r.
Qed.

Lemma log_blind_execute_rows host rows : forall i, log_blind (execute_rows host i rows).
Proof.
  induction rows as [|r rows IH]; intros i; cbn [execute_rows].
  - apply log_blind_ret.
  - blind. apply IH.
Qed.

Lemma log_blind_insert_data host connection rows :
  log_blind (insert_data host connection rows).
Proof.
  unfold insert_data, cursor_executemany, connection_commit, called.
  blind. apply log_blind_execute_rows.
Qed.

Lemma log_blind_with_np_random {A} (m : M RandomState A) :
  log_blind (with_np_random m).
Proof.
  intros w l. exists []. unfold with_np_random.
  change (np_random (set_log l w)) with (np_random w).
  destruct (m (np_random w)) as [r rs']. cbn. now rewrite !app_nil_r.
Qed.

Lemma log_blind_after_timer_check host : log_blind (after_timer_check host).
Proof.
  unfold after_timer_check.
  apply log_blind_bind; [apply log_blind_download_wallet_files | intros _].
  apply log_blind_bind; [apply log_blind_get_db_connection | intros [connection|]].
  - apply log_blind_bind; [unfold called; blind | intros _].
    apply log_blind_bind; [apply log_blind_with_np_random | intros data_tuples].
    apply log_blind_bind; [apply log_blind_insert_data | intros _].
    unfold connection_close, called. blind.
  - apply log_blind_ret.
Qed.

(** X12. The lateness flag changes nothing but the log: a late run
    returns or raises exactly as the on-time run does from the same
    world, and leaves the same world, except that its log starts with
    the warning before the entries the on-time run adds. *)
Theorem lateness_only_adds_warning host w :
  let on_time_run := generate_usage_data host (mkTimerRequest false) w in
  let late_run := generate_usage_data host (mkTimerRequest true) w in
  fst late_run = fst on_time_run /\
  exists added,
    log (snd on_time_run) = log w ++ added /\
    snd late_run =
      set_log (log w ++ (WARNING, "The timer is past due!") :: added)
        (snd on_time_run).
Proof.
  intros on_time_run late_run.
  assert (Hon : on_time_run = after_timer_check host w) by reflexivity.
  assert (Hlate : late_run =
            after_timer_check host
              (set_log (log w ++ [(WARNING, "The timer is past due!")]) w))
    by reflexivity.
  destruct (log_blind_after_timer_check host w
              (log w ++ [(WARNING, "The timer is past due!")]))
    as (added & Hlog & Heq).
  rewrite Hlate, Hon, Heq. split; [reflexivity|].
  exists added. split; [exact Hlog|]. cbn [snd]. now rewrite <- app_assoc.
Qed.

(** ** The bumps of the flagged records *)

Lemma np_sum_cons b mask : np_sum (b :: mask) = int_of_bool b + np_sum mask.
Proof. reflexivity. Qed.

(** A flagged entry receives the value whose rank is the number of
    flagged entries before it. *)
Lemma lookup_masked_iadd_ranked xs : forall mask vs i x,
  mask !! i = Some true -> xs !! i = Some x ->
  (Z.to_nat (np_sum mask) <= length vs)%nat ->
  exists v, vs !! Z.to_nat (np_sum (take i mask)) = Some v /\
    masked_iadd xs mask vs !! i = Some (PrimFloat.add x (float_of_int v)).
Proof.
  induction xs as [|y xs IH]; intros [|b mask] vs i x Hm Hx Hlen; try discriminate.
  pose proof (np_sum_nonneg mask) as Hnn.
  rewrite np_sum_cons in Hlen.
  destruct i as [|i]; cbn in Hm, Hx.
  - injection Hm as ->. injection Hx as ->.
    destruct vs as [|v vs]; [cbn in Hlen; lia|].
    exists v. split; reflexivity.
  - pose proof (np_sum_nonneg (take i mask)) as Hrank.
    cbn [take]. rewrite np_sum_cons. destruct b; cbn [int_of_bool] in *.
    + destruct vs as [|v0 vs]; [cbn in Hlen; lia|].
      destruct (IH mask vs i x Hm Hx) as (v & Hv & Heq); [cbn in Hlen; lia|].
      exists v. split; [|exact Heq].
      replace (Z.to_nat (1 + np_sum (take i mask)))
        with (S (Z.to_nat (np_sum (take i mask)))) by lia.
      exact Hv.
    + destruct (IH mask vs i x Hm Hx) as (v & Hv & Heq); [lia|].
      exists v. split; [exact Hv | exact Heq].
Qed.

(** Counting the flagged records of a list whose flags are [mask]. *)
Lemma count_flagged rows mask :
  Forall2 (fun r b => is_anomaly r = int_of_bool b) rows mask ->
  forall i, length (filter flagged (take i rows)) = Z.to_nat (np_sum (take i mask)).
Proof.
  induction 1 as [|r b rows mask Hflag Hrest IH]; intros i.
  - now destruct i.
  - destruct i as [|i]; [reflexivity|].
    pose proof (np_sum_nonneg (take i mask)) as Hnn.
    cbn [take]. rewrite np_sum_cons, filter_cons. specialize (IH i).
    destruct b; cbn [int_of_bool] in *.
    + rewrite decide_True by exact Hflag. cbn [length]. lia.
    + rewrite decide_False by (unfold flagged; lia). lia.
Qed.

Lemma advance_advance a b rs : advance a (advance b rs) = advance (b + a) rs.
Proof. unfold advance. cbn. now rewrite Nat.add_assoc. Qed.

(** X13. After the seven arrays of [n] draws each, the generator draws
    exactly one bump for each flagged record and none for the others:
    it leaves numpy's generator [7 * n + K] draws further, [K] being the
    number of flagged records.  The bumps are handed out in order: the
    flagged record that has [j] flagged records before it receives, on
    top of its baseline, the [j]-th of those bump draws. *)
Theorem bumps_follow_flagged_records n rs rows rs' :
  generate_sample_data_tuples n rs = (Returned rows, rs') ->
  rs' = advance (7 * Z.to_nat n + length (filter flagged rows)) rs /\
  forall i r, rows !! i = Some r -> flagged r ->
    water_consumption r =
      PrimFloat.add
        (PrimFloat.add (float_of_int (household_size r * 50))
           (normal_at 0 10 rs (pos rs + 5 * Z.to_nat n + i)%nat))
        (float_of_int
           (choice_at 0 [250] rs
              (pos rs + 7 * Z.to_nat n + length (filter flagged (take i rows)))%nat)).
Proof.
  intros Hgen.
  pose proof (generate_sample_data_tuples_returned_size _ _ _ _ Hgen) as Hn.
  pose proof (generate_sample_data_tuples_returned n rs Hn) as Heq.
  cbv zeta in Heq. rewrite Heq in Hgen. injection Hgen as <- <-.
  set (N := Z.to_nat n) in *.
  set (rs5 := advance N (advance N (advance N (advance N (advance N rs))))) in *.
  set (hs := drawn (randint_at 1 6) (advance N (advance N (advance N rs))) N) in *.
  set (nz := drawn (normal_at 0 10) rs5 N) in *.
  set (an := drawn (choice_p_at 0x1.999999999999ap-5) (advance N rs5) N) in *.
  set (bumps := drawn (choice_at 0 [250]) (advance N (advance N rs5)) (Z.to_nat (np_sum an))) in *.
  set (normal_consumption := zip_with _ hs nz) in *.
  set (rows := row_of _ _ _ hs _ _ an <$> seq 0 N).
  assert (Hflags : Forall2 (fun r b => is_anomaly r = int_of_bool b) rows an).
  { apply Forall2_same_length_lookup. split.
    - subst rows an. now rewrite length_fmap, length_seq, length_drawn.
    - intros i r b Hr Hb. subst rows.
      apply list_lookup_fmap_Some in Hr as (j & -> & Hj).
      apply lookup_seq in Hj as [-> Hi]. cbn [Nat.add].
      unfold row_of. cbn [is_anomaly]. f_equal. now apply nth_lookup_Some. }
  pose proof (count_flagged rows an Hflags) as Hcount.
  assert (Hall : length (filter flagged rows) = Z.to_nat (np_sum an)).
  { rewrite <- (firstn_all rows), Hcount. f_equal. f_equal. apply firstn_all2.
    subst rows an. rewrite length_fmap, length_seq, length_drawn. lia. }
  split.
  - rewrite Hall. subst rs5. rewrite !advance_advance. f_equal. lia.
  - intros i r Hr Hflag. rewrite Hcount.
    subst rows. apply list_lookup_fmap_Some in Hr as (j & -> & Hj).
    apply lookup_seq in Hj as [-> Hi]. cbn [Nat.add] in *.
    assert (Hnoise : nz !! i = Some (normal_at 0 10 rs (pos rs + 5 * N + i)%nat)).
    { subst nz. rewrite lookup_drawn by exact Hi. f_equal.
      unfold normal_at. subst rs5. cbn [pos advance gauss]. do 3 f_equal. lia. }
    assert (Hhs : hs !! i = Some (nth i hs 0)).
    { apply lookup_nth. subst hs. now rewrite length_drawn. }
    assert (Hbase : normal_consumption !! i =
              Some (PrimFloat.add (float_of_int (nth i hs 0 * 50))
                      (normal_at 0 10 rs (pos rs + 5 * N + i)%nat))).
    { subst normal_consumption. rewrite lookup_zip_with, Hhs, Hnoise. reflexivity. }
    assert (Han : an !! i = Some (nth i an false)).
    { apply lookup_nth. subst an. now rewrite length_drawn. }
    unfold flagged, row_of in Hflag. cbn [is_anomaly] in Hflag.
    destruct (nth i an false) eqn:Hbit; [|discriminate].
    destruct (lookup_masked_iadd_ranked normal_consumption an bumps i _ Han Hbase)
      as (v & Hv & Hwc).
    { subst bumps. now rewrite length_drawn. }
    unfold row_of. cbn [water_consumption household_size].
    rewrite (nth_lookup_Some _ _ 0%float _ Hwc). do 2 f_equal.
    pose proof (lookup_lt_Some _ _ _ Hv) as Hrank.
    subst bumps. rewrite length_drawn in Hrank.
    rewrite lookup_drawn in Hv by exact Hrank. injection Hv as <-.
    unfold choice_at. subst rs5. cbn [pos advance bits]. do 4 f_equal. lia.
Qed.

Lemma bumps_follow_flagged_records_witness :
  exists rows rs',
    generate_sample_data_tuples 4 sample_random_state = (Returned rows, rs') /\
    rs' = advance (7 * Z.to_nat 4 + length (filter flagged rows)) sample_random_state /\
    forall i r, rows !! i = Some r -> flagged r ->
      water_consumption r =
        PrimFloat.add
          (PrimFloat.add (float_of_int (household_size r * 50))
             (normal_at 0 10 sample_random_state
                (pos sample_random_state + 5 * Z.to_nat 4 + i)%nat))
          (float_of_int
             (choice_at 0 [250] sample_random_state
                (pos sample_random_state + 7 * Z.to_nat 4
                 + length (filter flagged (take i rows)))%nat)).
Proof.
  eexists _, _. split; [vm_compute; reflexivity|].
  eapply (bumps_follow_flagged_records 4 sample_random_state).
  vm_compute. reflexivity.
Defined.

(** ** How a run can end *)

Lemma connection_close_returns connection w :
  connection_close connection w =
    (Returned tt, set_session_open false (set_txn [] (set_trace (trace w ++ [CallClose]) w))).
Proof. reflexivity. Qed.

(** X14. An exception leaves a run from two places only.  Either
    [oracledb.connect] raised it and it is not a [DatabaseError]; or the
    connection opened, the batch of ten was generated, and the exception
    was raised after that, by the insertion or the closing of the
    connection.  What is raised while provisioning is caught, a
    [DatabaseError] of the connection attempt is turned into [None],
    and generating the batch raises nothing. *)
Theorem run_raises_only_from_connect_or_insertion host myTimer w e :
  fst (generate_usage_data host myTimer w) = Raised e ->
  (connect_answer host (snd (download_wallet_files host w)) = Some e /\
   is_DatabaseError e = false) \/
  (connect_answer host (snd (download_wallet_files host w)) = None /\
   exists rows rs',
     generate_sample_data_tuples 10 (np_random w) = (Returned rows, rs') /\
     fst ((insert_data host TheConnection rows ;;; connection_close TheConnection)
            (inserting host myTimer w rs')) = Raised e).
Proof.
  rewrite <- connect_answer_provisioned with (myTimer := myTimer).
  destruct (connect_answer host (provisioned host myTimer w)) as [e0|] eqn:Hconnect.
  - rewrite (generate_usage_data_not_connected _ _ _ _ Hconnect).
    destruct (is_DatabaseError e0) eqn:Hclass; intros Hraised; [discriminate|].
    injection Hraised as <-. left. now split.
  - destruct (generated_batch_in_domain 10 (np_random w) ltac:(split; discriminate))
      as (rows & rs' & Hgen & _).
    rewrite (generate_usage_data_connected _ _ _ _ _ Hconnect Hgen).
    intros Hraised. right. split; [reflexivity|]. now exists rows, rs'.
Qed.

Lemma run_raises_only_from_connect_or_insertion_witness :
  let host := host_last_row_rejected 10 in
  let e := Exn IntegrityError "ORA-02290: check constraint violated" in
  (connect_answer host (snd (download_wallet_files host empty_world)) = Some e /\
   is_DatabaseError e = false) \/
  (connect_answer host (snd (download_wallet_files host empty_world)) = None /\
   exists rows rs',
     generate_sample_data_tuples 10 (np_random empty_world) = (Returned rows, rs') /\
     fst ((insert_data host TheConnection rows ;;; connection_close TheConnection)
            (inserting host on_time empty_world rs')) = Raised e).
Proof.
  apply (run_raises_only_from_connect_or_insertion (host_last_row_rejected 10)
           on_time empty_world).
  vm_compute. reflexivity.
Defined.

(** X15. A run that starts without an open session and returns normally
    leaves no session open: either no connection was made, or the
    connection it made has been closed. *)
Theorem returned_run_leaves_session_closed host myTimer w :
  session_open w = false ->
  fst (generate_usage_data host myTimer w) = Returned tt ->
  session_open (snd (generate_usage_data host myTimer w)) = false.
Proof.
  intros Hclosed.
  destruct (provisioned_step host myTimer w) as [_ (_ & _ & _ & Hsession)].
  destruct (connect_answer host (provisioned host myTimer w)) as [e0|] eqn:Hconnect.
  - rewrite (generate_usage_data_not_connected _ _ _ _ Hconnect).
    destruct (is_DatabaseError e0); intros Hret; [|discriminate].
    world_simpl. now rewrite Hsession.
  - destruct (generated_batch_in_domain 10 (np_random w) ltac:(split; discriminate))
      as (rows & rs' & Hgen & _).
    rewrite (generate_usage_data_connected _ _ _ _ _ Hconnect Hgen).
    unfold bind.
    destruct (insert_data host TheConnection rows (inserting host myTimer w rs'))
      as [[[] | e'] w3]; intros Hret; [|discriminate].
    now rewrite connection_close_returns.
Qed.

Lemma returned_run_leaves_session_closed_witness :
  session_open (snd (generate_usage_data host_bad_credentials on_time empty_world)) = false.
Proof.
  apply (returned_run_leaves_session_closed host_bad_credentials on_time empty_world);
    reflexivity.
Defined.
